(** * placeReflection: the reflection placer and the quick-zoom tool

    A shallow embedding of the two dragger contexts of
    [scripts/placeReflection.py] and [scripts/quickZoom.py].

    Conventions of the embedding:
    - Python floats and Maya doubles are idealised as real numbers ([R]);
      rounding is not modelled.  A division whose divisor is zero raises
      [ZeroDivisionError], as in Python, and [math.pow] raises
      [OverflowError] where its result is beyond the range of a double.
      What rounding alone does to the move distance is shown on binary64
      numbers in [Binary64.move_distance].
    - [int(x)] on a float is [py_int]: truncation toward zero.
    - Every method of the two classes is a computation in a small
      state-and-exception monad: the fields assigned before an exception
      stay assigned, as in Python.
    - What Maya answers to a query is supplied by a [Host] record
      (placeReflection) or read from a [World] of cameras (quickZoom);
      what the tools write is recorded ([Xform] effects, camera
      attributes). *)

From Stdlib Require Import Reals Lra Psatz RNsatz ZArith List String Bool.
From Stdlib Require Floats.
Import ListNotations.

Open Scope R_scope.

(** ** Numbers *)

(** [int(x)] for a float [x]: the integer part, rounded toward zero. *)
Definition py_int (r : R) : Z :=
  if Rle_dec 0 r then Int_part r else (- Int_part (- r))%Z.

(** The float[3] array the dragger context answers for [anchorPoint] and
    [dragPoint]. *)
Record ScreenPoint : Type := mkPoint { p0 : R; p1 : R; p2 : R }.

(** ** Exceptions and the method monad *)

Inductive exn : Type :=
| ZeroDivisionError
| AttributeError
| TypeError
| OverflowError.

Inductive result (A : Type) : Type :=
| Return (a : A)
| Raise (e : exn).
Arguments Return {A} a.
Arguments Raise {A} e.

Definition M (S A : Type) : Type := S -> result A * S.

Definition ret {S A} (a : A) : M S A := fun s => (Return a, s).
Definition raise {S A} (e : exn) : M S A := fun s => (Raise e, s).
Definition bind {S A B} (m : M S A) (k : A -> M S B) : M S B :=
  fun s => match m s with
           | (Return a, s') => k a s'
           | (Raise e, s') => (Raise e, s')
           end.
Definition get {S} : M S S := fun s => (Return s, s).
Definition gets {S A} (f : S -> A) : M S A := fun s => (Return (f s), s).
Definition modify {S} (f : S -> S) : M S unit := fun s => (Return tt, f s).
(** A call that does not touch the state. *)
Definition lift {S A} (r : result A) : M S A := fun s => (r, s).

Declare Scope monad_scope.
Delimit Scope monad_scope with monad.
Notation "x <- m ;; k" := (bind m (fun x => k))
  (at level 61, m at next level, right associativity) : monad_scope.
Notation "m ;; k" := (bind m (fun _ => k))
  (at level 61, right associativity) : monad_scope.

(** [a / b] on floats. *)
Definition py_div {S} (a b : R) : M S R :=
  if Req_dec_T b 0 then raise ZeroDivisionError else ret (a / b).

(** The magnitude from which a result is no double any more: from
    2^1024 - 2^970 on it rounds to infinity. *)
Definition DBL_OVERFLOW : R := IZR (2 ^ 1024 - 2 ^ 970).

(** [math.pow(x, n)] for a whole exponent: the power, or an
    [OverflowError] where it is out of range. *)
Definition math_pow (x : R) (n : nat) : result R :=
  if Rlt_dec (Rabs (x ^ n)) DBL_OVERFLOW then Return (x ^ n)
  else Raise OverflowError.

(** ** MVector (maya.api.OpenMaya)

    The operators of Maya's vector class that the scripts use:
    [u * v] is the dot product, [c * v] and [v * c] scale, [u ^ v] is the
    cross product, [v.normalize()] scales [v] to unit length in place. *)
Module MVec.

Record t : Type := mk { x : R; y : R; z : R }.

Definition add (u v : t) : t := mk (x u + x v) (y u + y v) (z u + z v).
Definition sub (u v : t) : t := mk (x u - x v) (y u - y v) (z u - z v).
Definition scale (c : R) (v : t) : t := mk (c * x v) (c * y v) (c * z v).
Definition dot (u v : t) : R := x u * x v + y u * y v + z u * z v.
Definition cross (u v : t) : t :=
  mk (y u * z v - z u * y v)
     (z u * x v - x u * z v)
     (x u * y v - y u * x v).
Definition length (v : t) : R := sqrt (dot v v).
Definition normalize (v : t) : t := scale (/ length v) v.

End MVec.

Definition MVector : Type := MVec.t.
(** World-space points ([MPoint], [MFloatPoint]) carry the same three
    coordinates. *)
Definition MPoint : Type := MVec.t.

Declare Scope vec_scope.
Delimit Scope vec_scope with vec.
Infix "+v" := MVec.add (at level 50, left associativity) : vec_scope.
Infix "-v" := MVec.sub (at level 50, left associativity) : vec_scope.
Infix "*v" := MVec.scale (at level 40, left associativity) : vec_scope.
Open Scope vec_scope.

(** ** Transformation data (maya.api.OpenMaya) *)

(** The upper 3x3 block of an [MMatrix], row by row. *)
Record Matrix3 : Type := mkMatrix3 { xRow : MVector; yRow : MVector; zRow : MVector }.

Record MQuaternion : Type := mkQuat { qx : R; qy : R; qz : R; qw : R }.

(** An [MTransformationMatrix], by its components. *)
Record MTransformationMatrix : Type := mkTransform {
  translation : MVector;
  rotation : MQuaternion;
  scaling : MVector;
  shearing : MVector
}.

Definition setTranslation (v : MVector) (m : MTransformationMatrix) :=
  mkTransform v (rotation m) (scaling m) (shearing m).
Definition setRotation (q : MQuaternion) (m : MTransformationMatrix) :=
  mkTransform (translation m) q (scaling m) (shearing m).

(** * placeReflection.py *)
Module PlaceReflection.

(** An [MDagPath], by its full path name. *)
Definition Dag : Type := string.

(** [om2UI.M3dView()] and [om2UI.M3dView().active3dView()]. *)
Inductive M3dView : Type := NoView | ActiveView.

(** The instance fields of [PlaceReflection]. *)
Record Self : Type := mkSelf {
  _view : M3dView;
  _dag : option Dag;
  _meshDag : option Dag;
  _isSet : bool;
  _reflPoint : option MPoint;
  _dist : R;
  _moveDist : R;
  _reflVector : option MVector;
  _axis : Z;
  _invert : bool;
  _translate : bool;
  _rotate : bool;
  _speedSlow : R;
  _speedFast : R
}.

(** What the tool does to the scene. *)
Inductive Effect : Type :=
| Xform (name : Dag) (matrix : MTransformationMatrix)
| Refresh.

(** The object and the effects it has had so far. *)
Record State : Type := mkState { self : Self; effects : list Effect }.

(** What Maya answers during one callback. *)
Record Host : Type := mkHost {
  (** first DAG path of the active selection list, if any *)
  getActiveSelection : option Dag;
  (** first DAG path selected from the screen position, if any *)
  selectFromScreen : Z -> Z -> option Dag;
  extendToShape : Dag -> Dag;
  hasFnMesh : Dag -> bool;
  viewToWorld : M3dView -> Z -> Z -> MPoint * MVector;
  (** the hit point; [None] when [len(intersection[0])] is zero *)
  closestIntersection : Dag -> MPoint -> MVector -> option MPoint;
  getClosestNormal : Dag -> MPoint -> MVector;
  (** the world matrix of a transform node, decomposed *)
  worldMatrix : Dag -> MTransformationMatrix;
  (** [MTransformationMatrix(mat).rotation(True)] *)
  matrixRotation : Matrix3 -> MQuaternion
}.

Definition upd (f : Self -> Self) : M State unit :=
  modify (fun s => mkState (f (self s)) (effects s)).
Definition emit (e : Effect) : M State unit :=
  modify (fun s => mkState (self s) (effects s ++ [e])).
Definition field {A} (f : Self -> A) : M State A := gets (fun s => f (self s)).

Definition set_view v (o : Self) :=
  mkSelf v (_dag o) (_meshDag o) (_isSet o) (_reflPoint o) (_dist o)
         (_moveDist o) (_reflVector o) (_axis o) (_invert o) (_translate o)
         (_rotate o) (_speedSlow o) (_speedFast o).
Definition set_dag v (o : Self) :=
  mkSelf (_view o) v (_meshDag o) (_isSet o) (_reflPoint o) (_dist o)
         (_moveDist o) (_reflVector o) (_axis o) (_invert o) (_translate o)
         (_rotate o) (_speedSlow o) (_speedFast o).
Definition set_meshDag v (o : Self) :=
  mkSelf (_view o) (_dag o) v (_isSet o) (_reflPoint o) (_dist o)
         (_moveDist o) (_reflVector o) (_axis o) (_invert o) (_translate o)
         (_rotate o) (_speedSlow o) (_speedFast o).
Definition set_isSet v (o : Self) :=
  mkSelf (_view o) (_dag o) (_meshDag o) v (_reflPoint o) (_dist o)
         (_moveDist o) (_reflVector o) (_axis o) (_invert o) (_translate o)
         (_rotate o) (_speedSlow o) (_speedFast o).
Definition set_reflPoint v (o : Self) :=
  mkSelf (_view o) (_dag o) (_meshDag o) (_isSet o) v (_dist o)
         (_moveDist o) (_reflVector o) (_axis o) (_invert o) (_translate o)
         (_rotate o) (_speedSlow o) (_speedFast o).
Definition set_dist v (o : Self) :=
  mkSelf (_view o) (_dag o) (_meshDag o) (_isSet o) (_reflPoint o) v
         (_moveDist o) (_reflVector o) (_axis o) (_invert o) (_translate o)
         (_rotate o) (_speedSlow o) (_speedFast o).
Definition set_moveDist v (o : Self) :=
  mkSelf (_view o) (_dag o) (_meshDag o) (_isSet o) (_reflPoint o) (_dist o)
         v (_reflVector o) (_axis o) (_invert o) (_translate o)
         (_rotate o) (_speedSlow o) (_speedFast o).
Definition set_reflVector v (o : Self) :=
  mkSelf (_view o) (_dag o) (_meshDag o) (_isSet o) (_reflPoint o) (_dist o)
         (_moveDist o) v (_axis o) (_invert o) (_translate o)
         (_rotate o) (_speedSlow o) (_speedFast o).

(** [__init__]: the object before the first gesture. *)
Definition __init__ : Self :=
  mkSelf NoView None None false None 0 0 None 2%Z true true true
         (1 / 1000) (1 / 100).

(** [_asDagPath(name)]: the named node, or the first selected node when
    [name] is [None]. The one caller that gives a name, [_getMesh], gives
    the full path name of the DAG path it has just read from the scene,
    so [sel.add(name)] finds the node: the [RuntimeError] for a name
    that does not exist is not reachable from the callbacks and is left
    out. A selection whose first item is no DAG node, for which
    [getDagPath] fails inside Maya, is outside the [Host]. *)
Definition _asDagPath (h : Host) (name : option Dag) : option Dag :=
  match name with
  | None => getActiveSelection h
  | Some n => Some n
  end.

(** [_reflectionVector(viewVector, faceNormal)]. *)
Definition _reflectionVector (viewVector faceNormal : MVector) : MVector :=
  let doublePerp := MVec.dot (2 *v viewVector) faceNormal in
  viewVector -v (doublePerp *v faceNormal).

(** [_distance(point1, point2)]; the method reads and assigns no field.
    Each [math.pow] can raise; the sum and the square root cannot (a sum
    beyond the range is infinite in the code, and stays a real number
    here). *)
Definition _distance (point1 point2 : MPoint) : result R :=
  let value := 0 in
  match math_pow (MVec.x point1 - MVec.x point2) 2 with
  | Raise e => Raise e
  | Return square =>
  let value := value + square in
  match math_pow (MVec.y point1 - MVec.y point2) 2 with
  | Raise e => Raise e
  | Return square =>
  let value := value + square in
  match math_pow (MVec.z point1 - MVec.z point2) 2 with
  | Raise e => Raise e
  | Return square =>
  let value := value + square in
  Return (sqrt value)
  end end end.

(** The three rows [xRot], [yRot], [zRot] that [_quatFromVector] puts
    into its matrix. *)
Definition _quatFromVector_rows (axis : Z) (invert : bool)
           (vector : MVector) : Matrix3 :=
  let neg (v : MVector) := MVec.mk (- MVec.x v) (- MVec.y v) (- MVec.z v) in
  let cross1 := MVec.normalize (MVec.cross vector (MVec.mk 0 1 0)) in
  let cross2 := MVec.normalize (MVec.cross vector cross1) in
  if (axis =? 0)%Z then
    let xRot := neg vector in
    let yRot := neg cross2 in
    let zRot := cross1 in
    let xRot := if invert then neg xRot else xRot in
    mkMatrix3 xRot yRot zRot
  else if (axis =? 1)%Z then
    let xRot := neg cross2 in
    let yRot := neg vector in
    let zRot := cross1 in
    let yRot := if invert then neg yRot else yRot in
    mkMatrix3 xRot yRot zRot
  else
    let xRot := cross1 in
    let yRot := neg cross2 in
    let zRot := vector in
    let xRot := if invert then neg xRot else xRot in
    let zRot := if invert then neg zRot else zRot in
    mkMatrix3 xRot yRot zRot.

(** [_quatFromVector(vector)]; [None * ...] is a [TypeError]. *)
Definition _quatFromVector (h : Host) (vector : option MVector)
  : M State MQuaternion :=
  match vector with
  | None => raise TypeError
  | Some vector =>
      (axis <- field _axis ;;
       invert <- field _invert ;;
       ret (matrixRotation h (_quatFromVector_rows axis invert vector)))%monad
  end.

(** [_getMesh(xPos, yPos)]. *)
Definition _getMesh (h : Host) (xPos yPos : Z) : M State (option Dag) :=
  match selectFromScreen h xPos yPos with
  | Some dagPath =>
      (dag <- field _dag ;;
       meshDag <- field _meshDag ;;
       match dag with
       | None => raise AttributeError
       | Some dag =>
           if (String.eqb dagPath dag && match meshDag with Some _ => true | None => false end)%bool
           then ret meshDag
           else
             let dagPath := extendToShape h dagPath in
             let name := dagPath in
             if negb (hasFnMesh h dagPath) then ret None
             else ret (_asDagPath h (Some name))
       end)%monad
  | None => ret None
  end.

(** [_closestIntersection(dagPath, worldPt, worldVector)]. *)
Definition _closestIntersection (h : Host) (dagPath : Dag)
           (worldPt : MPoint) (worldVector : MVector) : option MPoint :=
  closestIntersection h dagPath worldPt worldVector.

(** [_worldMatrix(obj)] and [_translation(obj)]. *)
Definition _worldMatrix (h : Host) (obj : Dag) : MTransformationMatrix :=
  worldMatrix h obj.
Definition _translation (h : Host) (obj : Dag) : MVector :=
  let mat := _worldMatrix h obj in
  let transMat := mat in
  translation transMat.

(** What the dragger context answers to the queries of [_drag]. *)
Record Gesture : Type := mkGesture {
  anchorPoint : ScreenPoint;
  dragPoint : ScreenPoint;
  modifier : string
}.

Open Scope monad_scope.

(** The place-mode branch of [_place]; [true] when the method goes on to
    write the transform, [false] where the source returns. *)
Definition place_mode (h : Host) (xPos yPos : Z) : M State bool :=
  dagPath <- _getMesh h xPos yPos ;;
  match dagPath with
  | None => ret false
  | Some dagPath =>
      upd (set_meshDag (Some dagPath)) ;;
      view <- field _view ;;
      let '(worldPt, worldVector) := viewToWorld h view xPos yPos in
      (* normalize() works in place: worldVector is normalized as well *)
      let worldVector := MVec.normalize worldVector in
      let viewVector := worldVector in
      let intersection := _closestIntersection h dagPath worldPt worldVector in
      match intersection with
      | None => ret false
      | Some hitPoint =>
          upd (set_reflPoint (Some hitPoint)) ;;
          let faceNormal := getClosestNormal h dagPath hitPoint in
          upd (set_reflVector (Some (_reflectionVector viewVector faceNormal))) ;;
          dag <- field _dag ;;
          match dag with
          | None => raise AttributeError
          | Some dag =>
              let pos := _translation h dag in
              dist <- lift (_distance hitPoint pos) ;;
              upd (set_dist dist) ;;
              dist <- field _dist ;;
              upd (set_moveDist dist) ;;
              upd (set_isSet true) ;;
              ret true
          end
      end
  end.

(** The move-mode branch of [_place]. *)
Definition move_mode (startPoint : ScreenPoint) (xPos : Z)
           (modifier : string) : M State bool :=
  speedVal <- field _speedSlow ;;
  speedVal <- (if String.eqb modifier "shift" then field _speedFast
               else ret speedVal) ;;
  let xPosStart := py_int (p0 startPoint) in
  let dragDist := IZR (xPos - xPosStart) * speedVal in
  dist <- field _dist ;;
  upd (set_moveDist (dist * (1 + dragDist))) ;;
  ret true.

(** The end of [_place]: build the matrix and place the object. *)
Definition apply_transform (h : Host) : M State unit :=
  dag <- field _dag ;;
  match dag with
  | None => raise AttributeError
  | Some dag =>
      let mat := _worldMatrix h dag in
      let transMat := mat in
      translate <- field _translate ;;
      transMat <-
        (if translate then
           reflVector <- field _reflVector ;;
           moveDist <- field _moveDist ;;
           reflPoint <- field _reflPoint ;;
           match reflVector, reflPoint with
           | Some reflVector, Some reflPoint =>
               let placeVector := (moveDist *v reflVector) +v reflPoint in
               ret (setTranslation placeVector transMat)
           | _, _ => raise TypeError
           end
         else ret transMat) ;;
      rotate <- field _rotate ;;
      transMat <-
        (if rotate then
           reflVector <- field _reflVector ;;
           quat <- _quatFromVector h reflVector ;;
           ret (setRotation quat transMat)
         else ret transMat) ;;
      emit (Xform dag transMat) ;;
      emit Refresh
  end.

(** [_place(startPoint, point, modifier)]. *)
Definition _place (h : Host) (startPoint point : ScreenPoint)
           (modifier : string) : M State unit :=
  let xPos := py_int (p0 point) in
  let yPos := py_int (p1 point) in
  go <- (if String.eqb modifier "none" then place_mode h xPos yPos
         else
           isSet <- field _isSet ;;
           if isSet then move_mode startPoint xPos modifier
           else ret false) ;;
  if go then apply_transform h else ret tt.

(** [_press()]. *)
Definition _press (h : Host) : M State unit :=
  upd (set_view ActiveView) ;;
  upd (set_dag (_asDagPath h None)) ;;
  dag <- field _dag ;;
  match dag with
  | None => ret tt
  | Some _ =>
      moveDist <- field _moveDist ;;
      upd (set_dist moveDist)
  end.

(** [_drag()]. *)
Definition _drag (h : Host) (g : Gesture) : M State unit :=
  dag <- field _dag ;;
  match dag with
  | None => ret tt
  | Some _ => _place h (anchorPoint g) (dragPoint g) (modifier g)
  end.

(** [_release()]. *)
Definition _release : M State unit :=
  upd (set_view NoView) ;;
  upd (set_dag None) ;;
  upd (set_meshDag None).

(** [_finalize()]. *)
Definition _finalize : M State unit :=
  upd (set_moveDist 0) ;;
  upd (set_isSet false).

Close Scope monad_scope.

(** [_valueList(mat)], for a matrix given by its [getElement]. *)
Definition _valueList (getElement : nat -> nat -> R) : list R :=
  flat_map (fun i => map (fun j => getElement i j) (seq 0 4)) (seq 0 4).

(** ** Preferences

    The six option variables of the tool, each of the kind the tool
    stores it with ([intValue] or [floatValue]); [None] while the
    variable does not exist. *)
Record OptionVars : Type := mkOptionVars {
  AFFECT_TRANSLATION : option Z;
  AFFECT_ROTATION : option Z;
  INVERT_AXIS : option Z;
  ORIENT_AXIS : option Z;
  SPEED_SLOW : option R;
  SPEED_FAST : option R
}.

Definition SPEED_SLOW_VALUE : R := 1 / 1000.
Definition SPEED_FAST_VALUE : R := 1 / 100.

(** [cmds.optionVar(query=...)]: the value, 0 for a variable that does
    not exist. *)
Definition query_int (v : option Z) : Z :=
  match v with Some z => z | None => 0%Z end.
Definition query_float (v : option R) : R :=
  match v with Some r => r | None => 0 end.

(** A bool stored with [intValue], and an int read as a condition. *)
Definition int_of_bool (b : bool) : Z := if b then 1%Z else 0%Z.
Definition truth (z : Z) : bool := negb (z =? 0)%Z.

Definition set_axis v (o : Self) :=
  mkSelf (_view o) (_dag o) (_meshDag o) (_isSet o) (_reflPoint o) (_dist o)
         (_moveDist o) (_reflVector o) v (_invert o) (_translate o)
         (_rotate o) (_speedSlow o) (_speedFast o).
Definition set_invert v (o : Self) :=
  mkSelf (_view o) (_dag o) (_meshDag o) (_isSet o) (_reflPoint o) (_dist o)
         (_moveDist o) (_reflVector o) (_axis o) v (_translate o)
         (_rotate o) (_speedSlow o) (_speedFast o).
Definition set_translate v (o : Self) :=
  mkSelf (_view o) (_dag o) (_meshDag o) (_isSet o) (_reflPoint o) (_dist o)
         (_moveDist o) (_reflVector o) (_axis o) (_invert o) v
         (_rotate o) (_speedSlow o) (_speedFast o).
Definition set_rotate v (o : Self) :=
  mkSelf (_view o) (_dag o) (_meshDag o) (_isSet o) (_reflPoint o) (_dist o)
         (_moveDist o) (_reflVector o) (_axis o) (_invert o) (_translate o)
         v (_speedSlow o) (_speedFast o).
Definition set_speedSlow v (o : Self) :=
  mkSelf (_view o) (_dag o) (_meshDag o) (_isSet o) (_reflPoint o) (_dist o)
         (_moveDist o) (_reflVector o) (_axis o) (_invert o) (_translate o)
         (_rotate o) v (_speedFast o).
Definition set_speedFast v (o : Self) :=
  mkSelf (_view o) (_dag o) (_meshDag o) (_isSet o) (_reflPoint o) (_dist o)
         (_moveDist o) (_reflVector o) (_axis o) (_invert o) (_translate o)
         (_rotate o) (_speedSlow o) v.

(** The object together with the stored preferences. *)
Definition Prefs : Type := (Self * OptionVars)%type.

(** [translate()], [rotate()], [axis()], [invert()], [speed(speedType)]. *)
Definition translate (o : Self) : bool := _translate o.
Definition rotate (o : Self) : bool := _rotate o.
Definition axis (o : Self) : Z := _axis o.
Definition invert (o : Self) : bool := _invert o.
Definition speed (speedType : Z) (o : Self) : R :=
  if (speedType =? 0)%Z then _speedSlow o else _speedFast o.

(** [setTranslate(value)], [setRotate(value)], [setAxis(value)],
    [setInvert(value)], [setSpeed(speedType, value)]. *)
Definition setTranslate (value : bool) (p : Prefs) : Prefs :=
  let (o, ov) := p in
  (set_translate value o,
   mkOptionVars (Some (int_of_bool value)) (AFFECT_ROTATION ov) (INVERT_AXIS ov)
                (ORIENT_AXIS ov) (SPEED_SLOW ov) (SPEED_FAST ov)).
Definition setRotate (value : bool) (p : Prefs) : Prefs :=
  let (o, ov) := p in
  (set_rotate value o,
   mkOptionVars (AFFECT_TRANSLATION ov) (Some (int_of_bool value)) (INVERT_AXIS ov)
                (ORIENT_AXIS ov) (SPEED_SLOW ov) (SPEED_FAST ov)).
Definition setAxis (value : Z) (p : Prefs) : Prefs :=
  let (o, ov) := p in
  (set_axis value o,
   mkOptionVars (AFFECT_TRANSLATION ov) (AFFECT_ROTATION ov) (INVERT_AXIS ov)
                (Some value) (SPEED_SLOW ov) (SPEED_FAST ov)).
Definition setInvert (value : bool) (p : Prefs) : Prefs :=
  let (o, ov) := p in
  (set_invert value o,
   mkOptionVars (AFFECT_TRANSLATION ov) (AFFECT_ROTATION ov)
                (Some (int_of_bool value))
                (ORIENT_AXIS ov) (SPEED_SLOW ov) (SPEED_FAST ov)).
Definition setSpeed (speedType : Z) (value : R) (p : Prefs) : Prefs :=
  let (o, ov) := p in
  if (speedType =? 0)%Z then
    (set_speedSlow value o,
     mkOptionVars (AFFECT_TRANSLATION ov) (AFFECT_ROTATION ov) (INVERT_AXIS ov)
                  (ORIENT_AXIS ov) (Some value) (SPEED_FAST ov))
  else
    (set_speedFast value o,
     mkOptionVars (AFFECT_TRANSLATION ov) (AFFECT_ROTATION ov) (INVERT_AXIS ov)
                  (ORIENT_AXIS ov) (SPEED_SLOW ov) (Some value)).

(** [_setOptionVars(reset)]. *)
Definition _setOptionVars (reset : bool) (ov : OptionVars) : OptionVars :=
  let default {A} (v : option A) (d : A) : option A :=
    match v with
    | Some x => if reset then Some d else Some x
    | None => Some d
    end in
  mkOptionVars (default (AFFECT_TRANSLATION ov) 1%Z)
               (default (AFFECT_ROTATION ov) 1%Z)
               (default (INVERT_AXIS ov) 1%Z)
               (default (ORIENT_AXIS ov) 2%Z)
               (default (SPEED_SLOW ov) SPEED_SLOW_VALUE)
               (default (SPEED_FAST ov) SPEED_FAST_VALUE).

(** [_getOptionVars()]. *)
Definition _getOptionVars (p : Prefs) : Prefs :=
  let (o, ov) := p in
  (mkSelf (_view o) (_dag o) (_meshDag o) (_isSet o) (_reflPoint o) (_dist o)
          (_moveDist o) (_reflVector o)
          (query_int (ORIENT_AXIS ov))
          (truth (query_int (INVERT_AXIS ov)))
          (truth (query_int (AFFECT_TRANSLATION ov)))
          (truth (query_int (AFFECT_ROTATION ov)))
          (query_float (SPEED_SLOW ov))
          (query_float (SPEED_FAST ov)),
   ov).

(** [PlaceReflection()]: [__init__] creates the missing preferences and
    starts from its own defaults. *)
Definition new (ov : OptionVars) : Prefs := (__init__, _setOptionVars false ov).

End PlaceReflection.

(** * quickZoom.py *)
Module QuickZoom.

Inductive FilmFit : Type :=
| kFillFilmFit
| kHorizontalFilmFit
| kVerticalFilmFit
| kOverscanFilmFit.

Definition FilmFit_eqb (a b : FilmFit) : bool :=
  match a, b with
  | kFillFilmFit, kFillFilmFit
  | kHorizontalFilmFit, kHorizontalFilmFit
  | kVerticalFilmFit, kVerticalFilmFit
  | kOverscanFilmFit, kOverscanFilmFit => true
  | _, _ => false
  end.

(** The camera attributes the tool reads and writes. *)
Record Camera : Type := mkCamera {
  isOrtho : bool;
  aspectRatio : R;
  horizontalPan : R;
  verticalPan : R;
  zoom : R;
  overscan : R;
  horizontalFilmAperture : R;
  verticalFilmAperture : R;
  filmFit : FilmFit;
  panZoomEnabled : bool
}.

(** The values [cmds.setAttr] is called with. *)
Inductive Attr : Type :=
| PanZoomEnabled (b : bool)
| HorizontalPan (v : R)
| VerticalPan (v : R)
| Zoom (v : R).

Definition setCameraAttr (a : Attr) (c : Camera) : Camera :=
  match a with
  | PanZoomEnabled b =>
      mkCamera (isOrtho c) (aspectRatio c) (horizontalPan c) (verticalPan c)
               (zoom c) (overscan c) (horizontalFilmAperture c)
               (verticalFilmAperture c) (filmFit c) b
  | HorizontalPan v =>
      mkCamera (isOrtho c) (aspectRatio c) v (verticalPan c)
               (zoom c) (overscan c) (horizontalFilmAperture c)
               (verticalFilmAperture c) (filmFit c) (panZoomEnabled c)
  | VerticalPan v =>
      mkCamera (isOrtho c) (aspectRatio c) (horizontalPan c) v
               (zoom c) (overscan c) (horizontalFilmAperture c)
               (verticalFilmAperture c) (filmFit c) (panZoomEnabled c)
  | Zoom v =>
      mkCamera (isOrtho c) (aspectRatio c) (horizontalPan c) (verticalPan c)
               v (overscan c) (horizontalFilmAperture c)
               (verticalFilmAperture c) (filmFit c) (panZoomEnabled c)
  end.

Inductive Effect : Type :=
| SetAttr (camera : string) (a : Attr)
| InViewMessage (msg : string)
| Refresh.

(** The scene as the tool sees it: the camera of the active view, the
    cameras by name, the size of the active view's port, and what the
    tool has done so far. *)
Record World : Type := mkWorld {
  activeCamera : string;
  cameras : string -> Camera;
  portWidth : Z;
  portHeight : Z;
  effects : list Effect
}.

(** The instance fields of [QuickZoom]; [_mfn] by the camera's name.
    The view handle [_view] is the world's active camera and port. *)
Record Self : Type := mkSelf {
  _mfn : option string;
  _width : R;
  _height : R;
  _ratio : R;
  _hPan : R;
  _vPan : R;
  _startX : Z;
  _startY : Z;
  _endX : Z;
  _endY : Z
}.

Record State : Type := mkState { self : Self; world : World }.

(** [__init__]. *)
Definition __init__ : Self := mkSelf None 0 0 0 0 0 0 0 0 0.

Definition ZOOM_MESSAGE : string := "<hl>Drag</hl> a region to <hl>zoom/pan</hl> into.".
Definition RESET_MESSAGE : string :=
  "<hl>Ctrl</hl> click to <hl>reset</hl>.  |  <hl>Shift</hl> drag to <hl>pan</hl>.".

Definition upd (f : Self -> Self) : M State unit :=
  modify (fun s => mkState (f (self s)) (world s)).
Definition field {A} (f : Self -> A) : M State A := gets (fun s => f (self s)).
Definition emit (e : Effect) : M State unit :=
  modify (fun s =>
    let w := world s in
    mkState (self s)
      (mkWorld (activeCamera w) (cameras w) (portWidth w) (portHeight w)
               (effects w ++ [e]))).

(** [cmds.setAttr("<cam>.<attr>", value)]: the attribute of the named
    camera changes, and the call is recorded. *)
Definition writeAttr (cam : string) (a : Attr) (s : State) : State :=
  let w := world s in
  mkState (self s)
    (mkWorld (activeCamera w)
             (fun n => if String.eqb n cam then setCameraAttr a (cameras w n)
                       else cameras w n)
             (portWidth w) (portHeight w)
             (effects w ++ [SetAttr cam a])).
Definition setAttr (cam : string) (a : Attr) : M State unit :=
  modify (writeAttr cam a).

(** An attribute read through the function set [self._mfn];
    [None.attr] is an [AttributeError]. *)
Definition mfn {A} (f : Camera -> A) : M State A :=
  bind (field _mfn) (fun m =>
    match m with
    | None => raise AttributeError
    | Some cam => gets (fun s => f (cameras (world s) cam))
    end).
Definition mfn_name : M State string :=
  bind (field _mfn) (fun m =>
    match m with
    | None => raise AttributeError
    | Some cam => ret cam
    end).

Definition set_mfn v (o : Self) :=
  mkSelf v (_width o) (_height o) (_ratio o) (_hPan o) (_vPan o)
         (_startX o) (_startY o) (_endX o) (_endY o).
Definition set_view_info width height ratio hPan vPan (o : Self) :=
  mkSelf (_mfn o) width height ratio hPan vPan
         (_startX o) (_startY o) (_endX o) (_endY o).
Definition set_points startX startY endX endY (o : Self) :=
  mkSelf (_mfn o) (_width o) (_height o) (_ratio o) (_hPan o) (_vPan o)
         startX startY endX endY.

(** What the dragger context answers to the queries of the callbacks. *)
Record Gesture : Type := mkGesture {
  anchorPoint : ScreenPoint;
  dragPoint : ScreenPoint;
  modifier : string
}.

Open Scope monad_scope.

(** [togglePanZoom()]. *)
Definition togglePanZoom : M State unit :=
  state <- mfn panZoomEnabled ;;
  name <- mfn_name ;;
  setAttr name (PanZoomEnabled (negb state)) ;;
  if state then emit (InViewMessage ZOOM_MESSAGE)
  else emit (InViewMessage RESET_MESSAGE).

(** [_press()]. *)
Definition _press (g : Gesture) : M State unit :=
  cam <- gets (fun s => activeCamera (world s)) ;;
  upd (set_mfn (Some cam)) ;;
  ortho <- mfn isOrtho ;;
  if ortho then ret tt
  else if String.eqb (modifier g) "ctrl" then togglePanZoom
  else
    ratio <- mfn aspectRatio ;;
    hPan <- mfn horizontalPan ;;
    vPan <- mfn verticalPan ;;
    width <- gets (fun s => IZR (portWidth (world s))) ;;
    height <- gets (fun s => IZR (portHeight (world s))) ;;
    upd (set_view_info width height ratio hPan vPan).

(** [_pan()]. *)
Definition _pan : M State unit :=
  startX <- field _startX ;; endX <- field _endX ;;
  startY <- field _startY ;; endY <- field _endY ;;
  let deltaX := (startX - endX)%Z in
  let deltaY := (startY - endY)%Z in
  cam <- mfn_name ;;
  zoom <- mfn zoom ;;
  hPan0 <- field _hPan ;;
  vPan0 <- field _vPan ;;
  let hPan := hPan0 + IZR deltaX * (81 / 100000) * zoom in
  let vPan := vPan0 + IZR deltaY * (81 / 100000) * zoom in
  setAttr cam (HorizontalPan hPan) ;;
  setAttr cam (VerticalPan vPan) ;;
  emit Refresh.

(** [_drag()]. *)
Definition _drag (g : Gesture) : M State unit :=
  upd (set_points (py_int (p0 (anchorPoint g))) (py_int (p1 (anchorPoint g)))
                  (py_int (p0 (dragPoint g))) (py_int (p1 (dragPoint g)))) ;;
  if String.eqb (modifier g) "shift" then
    enabled <- mfn panZoomEnabled ;;
    if enabled then _pan else ret tt
  else ret tt.

(** [_isHorizontal()]. *)
Definition _isHorizontal : M State bool :=
  let horizontal := true in
  width <- field _width ;; height <- field _height ;;
  portRatio <- py_div width height ;;
  fit <- mfn filmFit ;;
  ratio <- field _ratio ;;
  let horizontal :=
    if FilmFit_eqb fit kFillFilmFit then
      if Rlt_dec portRatio ratio then false else horizontal
    else horizontal in
  fit <- mfn filmFit ;;
  let horizontal :=
    if FilmFit_eqb fit kVerticalFilmFit then false else horizontal in
  ret horizontal.

(** [_getZoom()]. *)
Definition _getZoom : M State R :=
  start <- field _startX ;;
  end_ <- field _endX ;;
  horizontal <- _isHorizontal ;;
  endY <- field _endY ;; startY <- field _startY ;;
  let start := if negb horizontal then endY else start in
  let end_ := if negb horizontal then startY else end_ in
  let size := if (end_ >? start)%Z then (end_ - start)%Z else (start - end_)%Z in
  horizontal <- _isHorizontal ;;
  if horizontal then
    width <- field _width ;; py_div (IZR size) width
  else
    height <- field _height ;; py_div (IZR size) height.

(** [_zoomView()]. *)
Definition _zoomView : M State unit :=
  overscan <- mfn overscan ;;
  apertureX <- mfn horizontalFilmAperture ;;
  apertureY <- mfn verticalFilmAperture ;;
  horizontal <- _isHorizontal ;;
  portWidth <- field _width ;;
  portHeight <- field _height ;;
  ratio <- field _ratio ;;
  portHeight <- (if horizontal then py_div portWidth ratio else ret portHeight) ;;
  portWidth <- (if horizontal then ret portWidth else ret (portHeight * ratio)) ;;
  let viewCenterX := portWidth / 2 in
  let viewCenterY := portHeight / 2 in
  startX <- field _startX ;; endX <- field _endX ;;
  startY <- field _startY ;; endY <- field _endY ;;
  width <- field _width ;; height <- field _height ;;
  let dragHalfX := IZR (endX - startX) / 2 in
  let dragHalfY := IZR (endY - startY) / 2 in
  let regionCenterX :=
    if horizontal then dragHalfX + IZR startX
    else dragHalfX + IZR startX - ((width - portWidth) / 2) in
  let regionCenterY :=
    if horizontal then dragHalfY + IZR startY - ((height - portHeight) / 2)
    else dragHalfY + IZR startY in
  let deltaCenterX := regionCenterX - viewCenterX in
  let deltaCenterY := regionCenterY - viewCenterY in
  qX <- py_div deltaCenterX portWidth ;;
  let offsetX := qX * overscan in
  qY <- py_div deltaCenterY portHeight ;;
  let offsetY := qY * overscan in
  let panX := apertureX * offsetX in
  let panY := apertureY * offsetY in
  cam <- mfn_name ;;
  setAttr cam (PanZoomEnabled true) ;;
  setAttr cam (HorizontalPan panX) ;;
  setAttr cam (VerticalPan panY) ;;
  z <- _getZoom ;;
  let zoom := z * overscan in
  let zoom := if Rle_dec zoom 0 then 1 / 100 else zoom in
  setAttr cam (Zoom zoom).

(** [_release()]. *)
Definition _release (g : Gesture) : M State unit :=
  if String.eqb (modifier g) "none" then
    _zoomView ;;
    emit (InViewMessage RESET_MESSAGE)
  else ret tt.

Close Scope monad_scope.

End QuickZoom.

(** * The move distance on binary64 numbers

    The arithmetic of the move-mode branch of [_place] on the doubles of
    the code, with their rounding: [dragDist = (xPos-xPosStart)*speedVal]
    and [self._dist*(1+dragDist)]. The pixel difference becomes a double
    as Python's [int * float] makes it one (pixel counts are far below
    2^53, where this is exact; the conversion here is the one of Python
    up to 2^63). *)
Module Binary64.
Import PrimFloat.
Local Open Scope float_scope.

Definition float_of_int (z : Z) : float :=
  match z with
  | Z0 => 0
  | Zpos _ => of_uint63 (Uint63.of_Z z)
  | Zneg _ => - of_uint63 (Uint63.of_Z (- z))
  end.

Definition move_distance (dist speedVal : float) (xPos xPosStart : Z) : float :=
  let dragDist := float_of_int (xPos - xPosStart) * speedVal in
  dist * (1 + dragDist).

(** The double 2^-60, a positive speed. *)
Definition two_to_minus_60 : float := 0x1p-60.

End Binary64.

(** * Vocabulary of the properties *)

(** The state a method leaves behind, whether it returned or raised. *)
Definition exec {S A} (m : M S A) (s : S) : S := snd (m s).

(** The rows of a frame are pairwise orthogonal unit vectors. *)
Definition orthonormal (m : Matrix3) : Prop :=
  MVec.dot (xRow m) (xRow m) = 1 /\
  MVec.dot (yRow m) (yRow m) = 1 /\
  MVec.dot (zRow m) (zRow m) = 1 /\
  MVec.dot (xRow m) (yRow m) = 0 /\
  MVec.dot (yRow m) (zRow m) = 0 /\
  MVec.dot (xRow m) (zRow m) = 0.

(** A frame is right-handed when its x row crossed with its y row is its
    z row, and left-handed when it is the opposite of the z row. *)
Definition right_handed (m : Matrix3) : Prop :=
  MVec.cross (xRow m) (yRow m) = zRow m.
Definition left_handed (m : Matrix3) : Prop :=
  MVec.cross (xRow m) (yRow m) = (-1) *v zRow m.

Definition det3 (m : Matrix3) : R :=
  MVec.dot (MVec.cross (xRow m) (yRow m)) (zRow m).

Definition worldUp : MVector := MVec.mk 0 1 0.

(** The length of the part of a vector that lies across the world up
    vector. *)
Definition horizontal_length (V : MVector) : R :=
  sqrt (MVec.x V * MVec.x V + MVec.z V * MVec.z V).

(** The squares that [_distance] takes of the coordinate differences of
    two points are all in the range of a double. *)
Definition squares_in_range (p q : MPoint) : Prop :=
  (MVec.x p - MVec.x q) ^ 2 < DBL_OVERFLOW /\
  (MVec.y p - MVec.y q) ^ 2 < DBL_OVERFLOW /\
  (MVec.z p - MVec.z q) ^ 2 < DBL_OVERFLOW.

(** The move distance a drag update leaves in the reflection placer. *)
Definition moveDist_after (h : PlaceReflection.Host)
           (startPoint point : ScreenPoint) (modifier : string)
           (s : PlaceReflection.State) : R :=
  PlaceReflection._moveDist
    (PlaceReflection.self
       (exec (PlaceReflection._place h startPoint point modifier) s)).

(** The speed the documentation gives a modifier key: shift is fast, ctrl
    is slow. *)
Definition documented_speed (o : PlaceReflection.Self) (modifier : string) : R :=
  if String.eqb modifier "shift" then PlaceReflection._speedFast o
  else PlaceReflection._speedSlow o.

(** The matrix the end of [_place] hands to [cmds.xform]. *)
Definition placed_matrix (h : PlaceReflection.Host) (o : PlaceReflection.Self)
           (dag : PlaceReflection.Dag)
           (reflVector : MVector) (reflPoint : MPoint) : MTransformationMatrix :=
  let m := PlaceReflection.worldMatrix h dag in
  let m := if PlaceReflection._translate o
           then setTranslation
                  ((PlaceReflection._moveDist o *v reflVector) +v reflPoint) m
           else m in
  if PlaceReflection._rotate o
  then setRotation
         (PlaceReflection.matrixRotation h
            (PlaceReflection._quatFromVector_rows
               (PlaceReflection._axis o) (PlaceReflection._invert o) reflVector)) m
  else m.

(** The camera attribute values among a list of effects. *)
Definition is_setAttr (e : QuickZoom.Effect) : bool :=
  match e with
  | QuickZoom.SetAttr _ _ => true
  | _ => false
  end.

Definition zoom_written (e : QuickZoom.Effect) : option R :=
  match e with
  | QuickZoom.SetAttr _ (QuickZoom.Zoom v) => Some v
  | _ => None
  end.

(** ** The callbacks of the reflection placer, as the dragger context
    dispatches them *)
Inductive PlacerEvent : Type :=
| Press (h : PlaceReflection.Host)
| Drag (h : PlaceReflection.Host) (g : PlaceReflection.Gesture)
| Release
| Finalize.

Definition placer_callback (e : PlacerEvent) : M PlaceReflection.State unit :=
  match e with
  | Press h => PlaceReflection._press h
  | Drag h g => PlaceReflection._drag h g
  | Release => PlaceReflection._release
  | Finalize => PlaceReflection._finalize
  end.

(** The state after a sequence of callbacks. *)
Fixpoint placer_run (es : list PlacerEvent) (s : PlaceReflection.State)
  : PlaceReflection.State :=
  match es with
  | [] => s
  | e :: es => placer_run es (exec (placer_callback e) s)
  end.

(** A callback that is not a drag update in place mode. *)
Definition not_place_drag (e : PlacerEvent) : Prop :=
  match e with
  | Drag _ g => String.eqb (PlaceReflection.modifier g) "none" = false
  | _ => True
  end.

(** A callback that is a drag update in place mode. *)
Definition place_drag (e : PlacerEvent) : Prop :=
  match e with
  | Drag _ g => PlaceReflection.modifier g = "none"%string
  | _ => False
  end.

(** A callback that is a drag update. *)
Definition is_drag (e : PlacerEvent) : Prop :=
  match e with
  | Drag _ _ => True
  | _ => False
  end.

(** Once armed, a reflection point and a reflection vector are stored. *)
Definition armed_has_reflection (o : PlaceReflection.Self) : Prop :=
  PlaceReflection._isSet o = true ->
  PlaceReflection._reflPoint o <> None /\
  PlaceReflection._reflVector o <> None.

(** The fields agree with the stored preferences. *)
Definition prefs_in_sync (p : PlaceReflection.Prefs) : Prop :=
  fst (PlaceReflection._getOptionVars p) = fst p.

(** The zoom written for a zoom factor: the floor 1/100 replaces what is
    not positive. *)
Definition floored (zoom : R) : R := if Rle_dec zoom 0 then 1 / 100 else zoom.

(** The fit of the view: horizontal, unless the film fit is vertical, or
    is fill with a port narrower than the camera's aspect ratio. *)
Definition horizontal_fit (fit : QuickZoom.FilmFit) (width height ratio : R)
  : bool :=
  match fit with
  | QuickZoom.kVerticalFilmFit => false
  | QuickZoom.kFillFilmFit =>
      if Rlt_dec (width / height) ratio then false else true
  | _ => true
  end.

(** The pan for a region between [lo] and [hi] along one direction of a
    view of the given size, the camera's image taking [port] of it: the
    offset of the region's centre from the centre of the view, as a
    fraction of the image, scaled by overscan and aperture. *)
Definition region_pan (aperture overscan : R) (lo hi : Z) (size port : R) : R :=
  aperture * (((IZR lo + IZR hi) / 2 - size / 2) / port * overscan).

(** What a release without modifier writes for the stored view
    ([width], [height], [ratio]), the drag region and the camera. *)
Definition framing (o : QuickZoom.Self) (c : QuickZoom.Camera)
  : list QuickZoom.Attr :=
  let width := QuickZoom._width o in
  let height := QuickZoom._height o in
  let ratio := QuickZoom._ratio o in
  let horizontal := horizontal_fit (QuickZoom.filmFit c) width height ratio in
  let portWidth := if horizontal then width else height * ratio in
  let portHeight := if horizontal then width / ratio else height in
  let extent :=
    if horizontal
    then IZR (Z.abs (QuickZoom._endX o - QuickZoom._startX o)) / width
    else IZR (Z.abs (QuickZoom._endY o - QuickZoom._startY o)) / height in
  [QuickZoom.PanZoomEnabled true;
   QuickZoom.HorizontalPan
     (region_pan (QuickZoom.horizontalFilmAperture c) (QuickZoom.overscan c)
                 (QuickZoom._startX o) (QuickZoom._endX o) width portWidth);
   QuickZoom.VerticalPan
     (region_pan (QuickZoom.verticalFilmAperture c) (QuickZoom.overscan c)
                 (QuickZoom._startY o) (QuickZoom._endY o) height portHeight);
   QuickZoom.Zoom (floored (extent * QuickZoom.overscan c))].



(** The attributes written one after the other on one camera. *)
Definition write_all (cam : string) (attrs : list QuickZoom.Attr)
           (s : QuickZoom.State) : QuickZoom.State :=
  fold_left (fun s a => QuickZoom.writeAttr cam a s) attrs s.

(** * Sample scene

    A floor plane under a light: the view ray hits the floor at
    (15/4, 0, 0) with direction (3/5, -4/5, 0); the light sits two units
    above the hit point. *)
Module Sample.
Import PlaceReflection.

Definition light : Dag := "|light1"%string.
Definition floor : Dag := "|floor|floorShape"%string.

Definition host : Host :=
  mkHost (Some light)
         (fun _ _ => Some "|floor"%string)
         (fun _ => floor)
         (fun _ => true)
         (fun _ _ _ => (MVec.mk 0 5 0, MVec.mk (3 / 5) (- 4 / 5) 0))
         (fun _ _ _ => Some (MVec.mk (15 / 4) 0 0))
         (fun _ _ => MVec.mk 0 1 0)
         (fun _ => mkTransform (MVec.mk (15 / 4) 2 0) (mkQuat 0 0 0 1)
                               (MVec.mk 1 1 1) (MVec.mk 0 0 0))
         (fun _ => mkQuat 0 0 0 1).

(** The same scene with nothing selected, and with nothing under the
    cursor. *)
Definition nothingSelected : Host :=
  mkHost None (selectFromScreen host) (extendToShape host) (hasFnMesh host)
         (viewToWorld host) (closestIntersection host) (getClosestNormal host)
         (worldMatrix host) (matrixRotation host).
(** A scene with the light at 10^200 on the x axis and the view ray
    hitting the floor at the origin. *)
Definition farLight : Host :=
  mkHost (getActiveSelection host) (selectFromScreen host)
         (extendToShape host) (hasFnMesh host) (viewToWorld host)
         (fun _ _ _ => Some (MVec.mk 0 0 0)) (getClosestNormal host)
         (fun _ => mkTransform (MVec.mk (IZR (10 ^ 200)) 0 0) (mkQuat 0 0 0 1)
                               (MVec.mk 1 1 1) (MVec.mk 0 0 0))
         (matrixRotation host).
Definition nothingUnderCursor : Host :=
  mkHost (getActiveSelection host) (fun _ _ => None) (extendToShape host)
         (hasFnMesh host) (viewToWorld host) (closestIntersection host)
         (getClosestNormal host) (worldMatrix host) (matrixRotation host).

(** The object after a placement on the floor, inside a gesture. *)
Definition armed : State :=
  mkState
    (mkSelf ActiveView (Some light) (Some floor) true
            (Some (MVec.mk (15 / 4) 0 0)) 2 2
            (Some (MVec.mk (3 / 5) (4 / 5) 0))
            2%Z true true true (1 / 1000) (1 / 100))
    [].

(** The object after the release of a gesture that placed it at
    distance 2 and then moved it to distance 3. *)
Definition moved : State :=
  mkState
    (mkSelf NoView None None true
            (Some (MVec.mk (15 / 4) 0 0)) 2 3
            (Some (MVec.mk (3 / 5) (4 / 5) 0))
            2%Z true true true (1 / 1000) (1 / 100))
    [].

(** The object in a gesture that started with a modifier key, before any
    placement. *)
Definition unarmed : State :=
  mkState
    (mkSelf ActiveView (Some light) None false None 0 0 None
            2%Z true true true (1 / 1000) (1 / 100))
    [].

(** An orthographic camera whose pan/zoom is enabled, in a view of
    1920 by 1080, and a perspective camera in the same view. *)
Definition orthoCamera : QuickZoom.Camera :=
  QuickZoom.mkCamera true 1 0 0 1 1 (3 / 2) 1 QuickZoom.kFillFilmFit true.
Definition perspCamera : QuickZoom.Camera :=
  QuickZoom.mkCamera false (16 / 9) 0 0 1 1 (3 / 2) 1
                     QuickZoom.kHorizontalFilmFit false.

Definition orthoWorld : QuickZoom.World :=
  QuickZoom.mkWorld "topShape"%string (fun _ => orthoCamera) 1920 1080 [].
Definition perspWorld : QuickZoom.World :=
  QuickZoom.mkWorld "perspShape"%string (fun _ => perspCamera) 1920 1080 [].

(** The quick-zoom tool after a press in the perspective view and a
    drag over the lower right quarter. *)
Definition framed : QuickZoom.State :=
  QuickZoom.mkState
    (QuickZoom.mkSelf (Some "perspShape"%string) 1920 1080 (16 / 9) 0 0
                      960 540 1440 810)
    perspWorld.

Definition shiftDrag : QuickZoom.Gesture :=
  QuickZoom.mkGesture (mkPoint 100 100 0) (mkPoint 50 100 0) "shift"%string.
Definition plainDrag : QuickZoom.Gesture :=
  QuickZoom.mkGesture (mkPoint 960 540 0) (mkPoint 1440 810 0) "none"%string.

End Sample.

(** * Facts about numbers and vectors *)

Lemma Int_part_IZR (n : Z) : Int_part (IZR n) = n.
Proof.
  symmetry. apply Int_part_spec. split; lra.
Qed.

Lemma py_int_IZR (n : Z) : py_int (IZR n) = n.
Proof.
  unfold py_int. destruct (Rle_dec 0 (IZR n)).
  - apply Int_part_IZR.
  - rewrite <- opp_IZR, Int_part_IZR. lia.
Qed.

Lemma py_int_nonneg_spec (r : R) (n : Z) :
  0 <= r -> IZR n <= r < IZR n + 1 -> py_int r = n.
Proof.
  intros Hr [H1 H2]. unfold py_int.
  destruct (Rle_dec 0 r) as [_|C]; [|contradiction].
  symmetry. apply Int_part_spec. split; lra.
Qed.

Lemma Int_part_le (a b : R) : a <= b -> (Int_part a <= Int_part b)%Z.
Proof.
  intros Hab.
  destruct (base_Int_part a) as [Ha1 Ha2].
  destruct (base_Int_part b) as [Hb1 Hb2].
  assert (H : IZR (Int_part a) < IZR (Int_part b + 1)).
  { rewrite plus_IZR. lra. }
  apply lt_IZR in H. lia.
Qed.

Lemma Int_part_nonneg (a : R) : 0 <= a -> (0 <= Int_part a)%Z.
Proof.
  intros Ha. rewrite <- (Int_part_IZR 0). now apply Int_part_le.
Qed.

(** [int] never decreases when its argument grows. *)
Lemma py_int_le (a b : R) : a <= b -> (py_int a <= py_int b)%Z.
Proof.
  intros Hab. unfold py_int.
  destruct (Rle_dec 0 a) as [Ha|Ha], (Rle_dec 0 b) as [Hb|Hb].
  - now apply Int_part_le.
  - lra.
  - assert (0 <= Int_part (- a))%Z by (apply Int_part_nonneg; lra).
    assert (0 <= Int_part b)%Z by (apply Int_part_nonneg; lra).
    lia.
  - assert (Int_part (- b) <= Int_part (- a))%Z by (apply Int_part_le; lra).
    lia.
Qed.

Lemma MVec_eq_intro (u v : MVector) :
  MVec.x u = MVec.x v -> MVec.y u = MVec.y v -> MVec.z u = MVec.z v -> u = v.
Proof. destruct u, v; simpl; intros; subst; reflexivity. Qed.

Lemma normalize_unit (v : MVector) :
  MVec.dot v v = 1 -> MVec.normalize v = v.
Proof.
  intros H. unfold MVec.normalize, MVec.length. rewrite H, sqrt_1.
  destruct v; unfold MVec.scale; simpl. f_equal; field.
Qed.

Lemma DBL_OVERFLOW_large : 1000000 < DBL_OVERFLOW.
Proof. unfold DBL_OVERFLOW. apply IZR_lt. vm_compute. reflexivity. Qed.

Lemma math_pow_returns (x : R) (n : nat) :
  Rabs (x ^ n) < DBL_OVERFLOW -> math_pow x n = Return (x ^ n).
Proof.
  intros H. unfold math_pow.
  destruct (Rlt_dec (Rabs (x ^ n)) DBL_OVERFLOW); [reflexivity | contradiction].
Qed.

Lemma math_pow_raises (x : R) (n : nat) :
  ~ Rabs (x ^ n) < DBL_OVERFLOW -> math_pow x n = Raise OverflowError.
Proof.
  intros H. unfold math_pow.
  destruct (Rlt_dec (Rabs (x ^ n)) DBL_OVERFLOW); [contradiction | reflexivity].
Qed.

Lemma Rabs_square (x : R) : Rabs (x ^ 2) = x ^ 2.
Proof. apply Rabs_pos_eq, pow2_ge_0. Qed.

(** Where the squares are in range [_distance] returns the length of the
    difference of the points; otherwise it raises [OverflowError]. *)
Lemma _distance_in_range (p q : MPoint) :
  squares_in_range p q ->
  PlaceReflection._distance p q = Return (MVec.length (p -v q)).
Proof.
  intros (Hx & Hy & Hz). unfold PlaceReflection._distance.
  rewrite !math_pow_returns by (rewrite Rabs_square; assumption).
  unfold MVec.length, MVec.dot, MVec.sub. simpl. do 2 f_equal. ring.
Qed.

Lemma _distance_out_of_range (p q : MPoint) :
  ~ squares_in_range p q ->
  PlaceReflection._distance p q = Raise OverflowError.
Proof.
  intros H. unfold PlaceReflection._distance, math_pow.
  rewrite !Rabs_square.
  destruct (Rlt_dec ((MVec.x p - MVec.x q) ^ 2) DBL_OVERFLOW); [|reflexivity].
  destruct (Rlt_dec ((MVec.y p - MVec.y q) ^ 2) DBL_OVERFLOW); [|reflexivity].
  destruct (Rlt_dec ((MVec.z p - MVec.z q) ^ 2) DBL_OVERFLOW); [|reflexivity].
  exfalso. apply H. repeat split; assumption.
Qed.

Lemma _distance_cases (p q : MPoint) :
  (squares_in_range p q /\
   PlaceReflection._distance p q = Return (MVec.length (p -v q))) \/
  (~ squares_in_range p q /\
   PlaceReflection._distance p q = Raise OverflowError).
Proof.
  destruct (Rlt_dec ((MVec.x p - MVec.x q) ^ 2) DBL_OVERFLOW) as [Hx|Hx];
    [destruct (Rlt_dec ((MVec.y p - MVec.y q) ^ 2) DBL_OVERFLOW) as [Hy|Hy];
     [destruct (Rlt_dec ((MVec.z p - MVec.z q) ^ 2) DBL_OVERFLOW) as [Hz|Hz]|]|].
  - left. split; [repeat split; assumption|].
    apply _distance_in_range. repeat split; assumption.
  - right. assert (H : ~ squares_in_range p q) by (intros (_ & _ & H); auto).
    split; [exact H | now apply _distance_out_of_range].
  - right. assert (H : ~ squares_in_range p q) by (intros (_ & H & _); auto).
    split; [exact H | now apply _distance_out_of_range].
  - right. assert (H : ~ squares_in_range p q) by (intros (H & _); auto).
    split; [exact H | now apply _distance_out_of_range].
Qed.

(** * The reflection placer *)

Ltac run_monad :=
  cbv beta iota delta
      [bind ret raise get gets modify lift exec py_div
       PlaceReflection.upd PlaceReflection.field PlaceReflection.emit
       QuickZoom.upd QuickZoom.field QuickZoom.emit QuickZoom.setAttr
       QuickZoom.mfn QuickZoom.mfn_name];
  simpl.

Section ReflectionPlacer.
Import PlaceReflection.

(** [_getMesh] only asks; it assigns nothing. *)
Lemma _getMesh_state (h : Host) (xPos yPos : Z) (s : State) :
  snd (_getMesh h xPos yPos s) = s.
Proof.
  unfold _getMesh. destruct (selectFromScreen h xPos yPos); [|reflexivity].
  run_monad. destruct (_dag (self s)); [|reflexivity].
  destruct (_ && _)%bool; [reflexivity|].
  destruct (negb _); reflexivity.
Qed.

Lemma _reflectionVector_formula (V N : MVector) :
  _reflectionVector V N = V -v ((2 * MVec.dot V N) *v N).
Proof.
  unfold _reflectionVector. f_equal. f_equal.
  unfold MVec.dot, MVec.scale; simpl. ring.
Qed.

(** C1. The reflection vector of place mode is [V - 2*(V.N)*N]: this is
    what [_reflectionVector] computes for every view vector [V] and
    normal [N], and what place mode stores in [_reflVector], for [V] the
    normalized view vector of the cursor and [N] the closest normal at
    the hit point, whenever a mesh is under the cursor and is hit. *)
Theorem reflection_vector_place_mode :
  (forall V N : MVector,
      _reflectionVector V N = V -v ((2 * MVec.dot V N) *v N)) /\
  (forall (h : Host) (s : State) (xPos yPos : Z) (dagPath : Dag)
          (hitPoint : MPoint),
      fst (_getMesh h xPos yPos s) = Return (Some dagPath) ->
      closestIntersection h dagPath
        (fst (viewToWorld h (_view (self s)) xPos yPos))
        (MVec.normalize (snd (viewToWorld h (_view (self s)) xPos yPos)))
      = Some hitPoint ->
      let V := MVec.normalize (snd (viewToWorld h (_view (self s)) xPos yPos)) in
      let N := getClosestNormal h dagPath hitPoint in
      _reflVector (self (exec (place_mode h xPos yPos) s))
      = Some (V -v ((2 * MVec.dot V N) *v N))).
Proof.
  split; [exact _reflectionVector_formula|].
  intros h s xPos yPos dagPath hitPoint Hmesh Hhit V N.
  pose proof (_getMesh_state h xPos yPos s) as Hst.
  unfold exec, place_mode, bind at 1.
  destruct (_getMesh h xPos yPos s) as [r s0]. simpl in Hmesh, Hst. subst r s0.
  run_monad.
  destruct (viewToWorld h (_view (self s)) xPos yPos) as [worldPt worldVector].
  simpl in Hhit, V. unfold _closestIntersection. rewrite Hhit.
  simpl. destruct (_dag (self s)) as [dag|]; cbn;
    [destruct (_distance hitPoint (_translation h dag)); cbn|];
    rewrite _reflectionVector_formula; reflexivity.
Qed.

Lemma reflection_vector_place_mode_witness :
  _reflVector (self (exec (place_mode Sample.host 0 0) Sample.armed))
  = Some (MVec.normalize (MVec.mk (3 / 5) (- 4 / 5) 0)
          -v ((2 * MVec.dot (MVec.normalize (MVec.mk (3 / 5) (- 4 / 5) 0))
                            (MVec.mk 0 1 0)) *v MVec.mk 0 1 0)).
Proof.
  apply (proj2 reflection_vector_place_mode Sample.host Sample.armed
               0%Z 0%Z Sample.floor (MVec.mk (15 / 4) 0 0)); reflexivity.
Defined.

(** The end of [_place] assigns no field. *)
Lemma apply_transform_self (h : Host) (s : State) :
  self (exec (apply_transform h) s) = self s.
Proof.
  unfold apply_transform, _quatFromVector. run_monad.
  destruct (_dag (self s)); simpl; [|reflexivity].
  destruct (_translate (self s)) eqn:Et; simpl.
  - destruct (_reflVector (self s)) eqn:Ev; simpl; [|reflexivity].
    destruct (_reflPoint (self s)) eqn:Ep; simpl; [|reflexivity].
    destruct (_rotate (self s)); simpl; rewrite ?Ev; reflexivity.
  - destruct (_rotate (self s)); simpl; [|reflexivity].
    destruct (_reflVector (self s)); reflexivity.
Qed.

Lemma apply_transform_run (h : Host) (s : State) (dag : Dag)
      (reflVector : MVector) (reflPoint : MPoint) :
  _dag (self s) = Some dag ->
  _reflVector (self s) = Some reflVector ->
  _reflPoint (self s) = Some reflPoint ->
  apply_transform h s
  = (Return tt,
     mkState (self s)
             (effects s ++ [Xform dag (placed_matrix h (self s) dag reflVector reflPoint);
                            Refresh])).
Proof.
  intros Hd Hv Hp.
  unfold apply_transform, _quatFromVector, placed_matrix, _worldMatrix.
  run_monad. rewrite Hd. simpl.
  destruct (_translate (self s)); simpl; rewrite ?Hv, ?Hp; simpl;
    destruct (_rotate (self s)); simpl; rewrite ?Hv; simpl;
    rewrite <- app_assoc; reflexivity.
Qed.

Lemma move_mode_run (startPoint : ScreenPoint) (xPos : Z)
      (modifier : string) (s : State) :
  move_mode startPoint xPos modifier s
  = (Return true,
     mkState
       (set_moveDist
          (_dist (self s)
           * (1 + IZR (xPos - py_int (p0 startPoint))
                  * documented_speed (self s) modifier))
          (self s))
       (effects s)).
Proof.
  unfold move_mode, documented_speed. run_monad.
  destruct (String.eqb modifier "shift"); reflexivity.
Qed.

(** A drag update with a modifier key, once armed: the new move
    distance, and nothing else, is assigned. *)
Lemma _place_move_self (h : Host) (startPoint point : ScreenPoint)
      (modifier : string) (s : State) :
  String.eqb modifier "none" = false ->
  _isSet (self s) = true ->
  self (exec (_place h startPoint point modifier) s)
  = set_moveDist
      (_dist (self s)
       * (1 + IZR (py_int (p0 point) - py_int (p0 startPoint))
              * documented_speed (self s) modifier))
      (self s).
Proof.
  intros Hm Hset. unfold exec, _place. rewrite Hm.
  unfold bind at 1. unfold bind at 1. unfold field at 1, gets at 1.
  simpl. rewrite Hset. rewrite move_mode_run.
  apply apply_transform_self.
Qed.

(** The whole of a drag update in move mode, when an object is being
    placed and a reflection is stored. *)
Lemma _place_move_run (h : Host) (startPoint point : ScreenPoint)
      (modifier : string) (s : State) (dag : Dag)
      (reflVector : MVector) (reflPoint : MPoint) :
  String.eqb modifier "none" = false ->
  _isSet (self s) = true ->
  _dag (self s) = Some dag ->
  _reflVector (self s) = Some reflVector ->
  _reflPoint (self s) = Some reflPoint ->
  let o' := set_moveDist
              (_dist (self s)
               * (1 + IZR (py_int (p0 point) - py_int (p0 startPoint))
                      * documented_speed (self s) modifier))
              (self s) in
  _place h startPoint point modifier s
  = (Return tt,
     mkState o'
             (effects s
              ++ [Xform dag (placed_matrix h o' dag reflVector reflPoint);
                  Refresh])).
Proof.
  intros Hm Hset Hd Hv Hp o'. unfold _place. rewrite Hm.
  unfold bind at 1. unfold bind at 1. unfold field at 1, gets at 1.
  simpl. rewrite Hset. rewrite move_mode_run.
  erewrite apply_transform_run by (simpl; eassumption).
  reflexivity.
Qed.

Lemma modifier_not_none (modifier : string) :
  modifier = "shift"%string \/ modifier = "ctrl"%string ->
  String.eqb modifier "none" = false.
Proof. intros [-> | ->]; reflexivity. Qed.

(** A drag update with a modifier key before any placement returns at
    once. *)
Lemma _place_unarmed (h : Host) (startPoint point : ScreenPoint)
      (modifier : string) (s : State) :
  String.eqb modifier "none" = false ->
  _isSet (self s) = false ->
  _place h startPoint point modifier s = (Return tt, s).
Proof.
  intros Hm Hset. unfold _place. rewrite Hm. run_monad. rewrite Hset.
  reflexivity.
Qed.

Lemma py_int_half : py_int (1 / 2) = 0%Z.
Proof. apply py_int_nonneg_spec; simpl; lra. Qed.

Lemma py_int_zero : py_int 0 = 0%Z.
Proof. exact (py_int_IZR 0). Qed.

(** C2, as stated, fails where a drag point falls between two pixels:
    armed, base distance 2, fast speed 1/100, anchor x = 0 and drag
    x = 1/2 with shift leave the move distance at 2, not at
    2 * (1 + (1/2 - 0) * 1/100). *)
Lemma truncated_drag_breaks_formula :
  _isSet (self Sample.armed) = true /\
  moveDist_after Sample.host (mkPoint 0 0 0) (mkPoint (1 / 2) 0 0) "shift"
                 Sample.armed
  <> _dist (self Sample.armed)
     * (1 + (p0 (mkPoint (1 / 2) 0 0) - p0 (mkPoint 0 0 0))
            * _speedFast (self Sample.armed)).
Proof.
  split; [reflexivity|].
  unfold moveDist_after. rewrite _place_move_self by reflexivity.
  simpl. rewrite py_int_half, py_int_zero. simpl. lra.
Qed.

(** C2, amended. In move mode (armed, modifier shift or ctrl) the new
    move distance is
    [baseDistance * (1 + (int(currentX) - int(anchorX)) * speed)], with
    the two x coordinates truncated to whole pixels, where the speed is
    the fast speed for shift and the slow speed for ctrl; for whole
    pixel coordinates this is
    [baseDistance * (1 + (currentX - anchorX) * speed)]. *)
Theorem move_distance_formula
        (h : Host) (startPoint point : ScreenPoint) (modifier : string)
        (s : State) :
  modifier = "shift"%string \/ modifier = "ctrl"%string ->
  _isSet (self s) = true ->
  let speed := if String.eqb modifier "shift" then _speedFast (self s)
               else _speedSlow (self s) in
  moveDist_after h startPoint point modifier s
  = _dist (self s)
    * (1 + (IZR (py_int (p0 point)) - IZR (py_int (p0 startPoint))) * speed)
  /\ (modifier = "shift"%string -> speed = _speedFast (self s))
  /\ (modifier = "ctrl"%string -> speed = _speedSlow (self s))
  /\ (forall a b : Z,
        p0 point = IZR a -> p0 startPoint = IZR b ->
        moveDist_after h startPoint point modifier s
        = _dist (self s) * (1 + (p0 point - p0 startPoint) * speed)).
Proof.
  intros Hm Hset speed.
  assert (Hmove : moveDist_after h startPoint point modifier s
                  = _dist (self s)
                    * (1 + (IZR (py_int (p0 point))
                            - IZR (py_int (p0 startPoint))) * speed)).
  { unfold moveDist_after.
    rewrite _place_move_self by auto using modifier_not_none.
    simpl. rewrite minus_IZR. reflexivity. }
  repeat split.
  - exact Hmove.
  - intros ->. reflexivity.
  - intros ->. reflexivity.
  - intros a b Ha Hb. rewrite Hmove, Ha, Hb, !py_int_IZR. reflexivity.
Qed.

Lemma move_distance_formula_witness :
  moveDist_after Sample.host (mkPoint 100 0 0) (mkPoint 150 0 0) "ctrl"
                 Sample.armed
  = 2 * (1 + (IZR (py_int 150) - IZR (py_int 100)) * (1 / 1000)).
Proof.
  apply (move_distance_formula Sample.host (mkPoint 100 0 0)
                               (mkPoint 150 0 0) "ctrl" Sample.armed).
  - right; reflexivity.
  - reflexivity.
Defined.

(** C7. A drag update with shift or ctrl while the state is not armed
    does nothing: [_drag] and [_place] return with every field and the
    list of effects as they were, so no transform is written. *)
Theorem unarmed_move_is_noop (h : Host) (g : Gesture) (s : State) :
  modifier g = "shift"%string \/ modifier g = "ctrl"%string ->
  _isSet (self s) = false ->
  _drag h g s = (Return tt, s) /\
  _place h (anchorPoint g) (dragPoint g) (modifier g) s = (Return tt, s).
Proof.
  intros Hm Hset.
  assert (Hp : _place h (anchorPoint g) (dragPoint g) (modifier g) s
               = (Return tt, s))
    by (apply _place_unarmed; auto using modifier_not_none).
  split; [|exact Hp].
  unfold _drag. run_monad. destruct (_dag (self s)); [exact Hp|reflexivity].
Qed.

Lemma unarmed_move_is_noop_witness :
  _drag Sample.host (mkGesture (mkPoint 100 0 0) (mkPoint 150 0 0) "shift")
        Sample.unarmed
  = (Return tt, Sample.unarmed) /\
  _place Sample.host (mkPoint 100 0 0) (mkPoint 150 0 0) "shift"
         Sample.unarmed
  = (Return tt, Sample.unarmed).
Proof.
  apply (unarmed_move_is_noop
           Sample.host
           (mkGesture (mkPoint 100 0 0) (mkPoint 150 0 0) "shift")
           Sample.unarmed).
  - left; reflexivity.
  - reflexivity.
Defined.

(** C8. A drag update in move mode (armed, shift or ctrl) leaves the
    stored reflection point and reflection vector as they were; of all
    fields only the move distance is assigned; and the object is placed
    at [reflPoint + moveDist * reflVector], along the stored reflection
    vector (when the translation is affected). *)
Theorem move_mode_keeps_reflection
        (h : Host) (startPoint point : ScreenPoint) (modifier : string)
        (s : State) :
  modifier = "shift"%string \/ modifier = "ctrl"%string ->
  _isSet (self s) = true ->
  let s' := exec (_place h startPoint point modifier) s in
  _reflPoint (self s') = _reflPoint (self s) /\
  _reflVector (self s') = _reflVector (self s) /\
  self s' = set_moveDist (_moveDist (self s')) (self s) /\
  (forall (dag : Dag) (reflVector : MVector) (reflPoint : MPoint),
      _dag (self s) = Some dag ->
      _reflVector (self s) = Some reflVector ->
      _reflPoint (self s) = Some reflPoint ->
      effects s'
      = (effects s
         ++ [Xform dag (placed_matrix h (self s') dag reflVector reflPoint);
             Refresh])%list /\
      (_translate (self s) = true ->
       translation (placed_matrix h (self s') dag reflVector reflPoint)
       = (_moveDist (self s') *v reflVector) +v reflPoint)).
Proof.
  intros Hm Hset s'.
  assert (Hself : self s'
                  = set_moveDist
                      (_dist (self s)
                       * (1 + IZR (py_int (p0 point) - py_int (p0 startPoint))
                              * documented_speed (self s) modifier))
                      (self s))
    by (apply _place_move_self; auto using modifier_not_none).
  repeat split.
  - rewrite Hself. reflexivity.
  - rewrite Hself. reflexivity.
  - rewrite Hself. reflexivity.
  - rewrite Hself. subst s'. unfold exec.
    erewrite _place_move_run by (eauto using modifier_not_none).
    reflexivity.
  - intros Ht. rewrite Hself. unfold placed_matrix. simpl. rewrite Ht.
    destruct (_rotate (self s)); reflexivity.
Qed.

Lemma move_mode_keeps_reflection_witness :
  _reflPoint (self (exec (_place Sample.host (mkPoint 100 0 0)
                                 (mkPoint 150 0 0) "shift") Sample.armed))
  = Some (MVec.mk (15 / 4) 0 0) /\
  _reflVector (self (exec (_place Sample.host (mkPoint 100 0 0)
                                  (mkPoint 150 0 0) "shift") Sample.armed))
  = Some (MVec.mk (3 / 5) (4 / 5) 0).
Proof.
  destruct (move_mode_keeps_reflection
              Sample.host (mkPoint 100 0 0) (mkPoint 150 0 0) "shift"
              Sample.armed (or_introl eq_refl) eq_refl)
    as (Hp & Hv & _).
  split; [exact Hp | exact Hv].
Defined.

(** C9, as stated, fails between two pixels: armed, base distance 2,
    fast speed 1/100, anchor x = 0; the drag points x = 0 and x = 1/2
    give the same move distance. *)
Lemma half_pixel_drag_not_strict :
  0 < _speedFast (self Sample.armed) /\
  0 < _dist (self Sample.armed) /\
  p0 (mkPoint 0 0 0) < p0 (mkPoint (1 / 2) 0 0) /\
  ~ (moveDist_after Sample.host (mkPoint 0 0 0) (mkPoint 0 0 0) "shift"
                    Sample.armed
     < moveDist_after Sample.host (mkPoint 0 0 0) (mkPoint (1 / 2) 0 0)
                      "shift" Sample.armed).
Proof.
  repeat split; try (simpl; lra).
  unfold moveDist_after. rewrite !_place_move_self by reflexivity.
  simpl. rewrite py_int_half, py_int_zero. lra.
Qed.

(** The strict growth of C9 fails on whole pixels as well, by rounding:
    on binary64 numbers, with the base distance 2 and the positive speed
    2^-60, the drag points one pixel apart give the same move distance,
    because 1 + 2^-60 rounds to 1. *)
Lemma whole_pixel_step_absorbed :
  let dist := Binary64.float_of_int 2 in
  let speedVal := Binary64.two_to_minus_60 in
  PrimFloat.ltb (Binary64.float_of_int 0) speedVal = true /\
  PrimFloat.ltb (Binary64.float_of_int 0) dist = true /\
  (0 < 1)%Z /\
  Binary64.move_distance dist speedVal 1 0
  = Binary64.move_distance dist speedVal 0 0.
Proof. repeat split. Qed.

(** C9, amended. For a fixed anchor point, positive speed and positive
    base distance, the move distance of move mode never decreases when
    the drag point's x coordinate grows, and two drag points in the same
    whole pixel ([int(x1) = int(x2)]) give the same move distance. (It
    does not grow strictly, not even from one whole pixel to a later
    one: see [whole_pixel_step_absorbed].) *)
Theorem move_distance_monotone
        (h : Host) (startPoint : ScreenPoint) (x1 y1 z1 x2 y2 z2 : R)
        (modifier : string) (s : State) :
  modifier = "shift"%string \/ modifier = "ctrl"%string ->
  _isSet (self s) = true ->
  0 < documented_speed (self s) modifier ->
  0 < _dist (self s) ->
  (x1 <= x2 ->
   moveDist_after h startPoint (mkPoint x1 y1 z1) modifier s
   <= moveDist_after h startPoint (mkPoint x2 y2 z2) modifier s) /\
  (py_int x1 = py_int x2 ->
   moveDist_after h startPoint (mkPoint x1 y1 z1) modifier s
   = moveDist_after h startPoint (mkPoint x2 y2 z2) modifier s).
Proof.
  intros Hm Hset Hspeed Hdist.
  unfold moveDist_after.
  rewrite !_place_move_self by auto using modifier_not_none.
  simpl.
  set (v := documented_speed (self s) modifier) in *.
  set (d := _dist (self s)) in *.
  set (a0 := py_int (p0 startPoint)).
  split.
  - intros Hx. apply py_int_le in Hx.
    rewrite !minus_IZR. apply IZR_le in Hx.
    apply Rmult_le_compat_l; [lra|].
    apply Rplus_le_compat_l.
    apply Rmult_le_compat_r; lra.
  - intros ->. reflexivity.
Qed.

Lemma move_distance_monotone_witness :
  moveDist_after Sample.host (mkPoint 0 0 0) (mkPoint 100 0 0) "shift"
                 Sample.armed
  <= moveDist_after Sample.host (mkPoint 0 0 0) (mkPoint 150 0 0) "shift"
                    Sample.armed.
Proof.
  refine (proj1 (move_distance_monotone
                   Sample.host (mkPoint 0 0 0) 100 0 0 150 0 0 "shift"
                   Sample.armed (or_introl eq_refl) eq_refl _ _) _);
    unfold documented_speed; simpl; lra.
Defined.

Lemma _release_run (s : State) :
  _release s
  = (Return tt,
     mkState (set_meshDag None (set_dag None (set_view NoView (self s))))
             (effects s)).
Proof. reflexivity. Qed.

Lemma _press_run (h : Host) (s : State) :
  _press h s
  = (Return tt,
     mkState
       (match getActiveSelection h with
        | Some dag =>
            set_dist (_moveDist (self s))
                     (set_dag (Some dag) (set_view ActiveView (self s)))
        | None => set_dag None (set_view ActiveView (self s))
        end)
       (effects s)).
Proof.
  unfold _press, _asDagPath. run_monad.
  destruct (getActiveSelection h); reflexivity.
Qed.

(** The whole of a drag update in place mode, when a mesh is under the
    cursor and the view ray hits it: the reflection point, the reflection
    vector and the distance of the object to the hit point are stored, the
    state is armed, and the object is placed. *)
Lemma _place_place_run (h : Host) (startPoint point : ScreenPoint)
      (s : State) (dag mesh : Dag) (hitPoint : MPoint) :
  let xPos := py_int (p0 point) in
  let yPos := py_int (p1 point) in
  let worldPt := fst (viewToWorld h (_view (self s)) xPos yPos) in
  let viewVector :=
    MVec.normalize (snd (viewToWorld h (_view (self s)) xPos yPos)) in
  _getMesh h xPos yPos s = (Return (Some mesh), s) ->
  _dag (self s) = Some dag ->
  closestIntersection h mesh worldPt viewVector = Some hitPoint ->
  let reflVector :=
    _reflectionVector viewVector (getClosestNormal h mesh hitPoint) in
  forall dist : R,
  _distance hitPoint (translation (worldMatrix h dag)) = Return dist ->
  let o' :=
    set_isSet true
      (set_moveDist dist
         (set_dist dist
            (set_reflVector (Some reflVector)
               (set_reflPoint (Some hitPoint)
                  (set_meshDag (Some mesh) (self s)))))) in
  _place h startPoint point "none" s
  = (Return tt,
     mkState o'
             (effects s
              ++ [Xform dag (placed_matrix h o' dag reflVector hitPoint);
                  Refresh])).
Proof.
  intros xPos yPos worldPt viewVector Hmesh Hdag Hhit reflVector dist Hdist o'.
  unfold _place. fold xPos yPos. simpl String.eqb. cbv iota.
  unfold bind at 1. unfold place_mode. unfold bind at 1. rewrite Hmesh.
  run_monad. subst worldPt viewVector.
  destruct (viewToWorld h (_view (self s)) xPos yPos) as [wp wv].
  simpl in Hhit. unfold _closestIntersection. rewrite Hhit. simpl.
  rewrite Hdag. simpl. unfold _translation, _worldMatrix. rewrite Hdist.
  erewrite apply_transform_run; [reflexivity | exact Hdag | reflexivity ..].
Qed.

(** The same update when [_distance] raises: the mesh, the reflection
    point and the reflection vector are stored, the distances and the
    armed flag are not, and nothing is placed. *)
Lemma _place_place_overflow (h : Host) (startPoint point : ScreenPoint)
      (s : State) (dag mesh : Dag) (hitPoint : MPoint) (e : exn) :
  let xPos := py_int (p0 point) in
  let yPos := py_int (p1 point) in
  let worldPt := fst (viewToWorld h (_view (self s)) xPos yPos) in
  let viewVector :=
    MVec.normalize (snd (viewToWorld h (_view (self s)) xPos yPos)) in
  _getMesh h xPos yPos s = (Return (Some mesh), s) ->
  _dag (self s) = Some dag ->
  closestIntersection h mesh worldPt viewVector = Some hitPoint ->
  let reflVector :=
    _reflectionVector viewVector (getClosestNormal h mesh hitPoint) in
  _distance hitPoint (translation (worldMatrix h dag)) = Raise e ->
  _place h startPoint point "none" s
  = (Raise e,
     mkState (set_reflVector (Some reflVector)
                (set_reflPoint (Some hitPoint)
                   (set_meshDag (Some mesh) (self s))))
             (effects s)).
Proof.
  intros xPos yPos worldPt viewVector Hmesh Hdag Hhit reflVector Hdist.
  unfold _place. fold xPos yPos. simpl String.eqb. cbv iota.
  unfold bind at 1. unfold place_mode. unfold bind at 1. rewrite Hmesh.
  run_monad. subst worldPt viewVector.
  destruct (viewToWorld h (_view (self s)) xPos yPos) as [wp wv].
  simpl in Hhit. unfold _closestIntersection. rewrite Hhit. simpl.
  rewrite Hdag. simpl. unfold _translation, _worldMatrix. rewrite Hdist.
  reflexivity.
Qed.

(** In the sample scene the light is two units from the hit point. *)
Lemma sample_distance :
  _distance (MVec.mk (15 / 4) 0 0) (MVec.mk (15 / 4) 2 0) = Return 2.
Proof.
  rewrite _distance_in_range.
  - f_equal. unfold MVec.length, MVec.dot, MVec.sub. simpl.
    replace ((15 / 4 - 15 / 4) * (15 / 4 - 15 / 4)
             + (0 - 2) * (0 - 2) + (0 - 0) * (0 - 0))
      with (2 * 2) by field.
    apply sqrt_square. lra.
  - pose proof DBL_OVERFLOW_large. unfold squares_in_range. simpl.
    repeat split; lra.
Qed.

(** The sample scene, run: a press and a plain drag on the floor turn the
    fresh object into the armed sample state, and place the light. *)
Lemma sample_placement :
  exec (_drag Sample.host (mkGesture (mkPoint 0 0 0) (mkPoint 640 360 0) "none"))
       (exec (_press Sample.host) (mkState __init__ []))
  = mkState (self Sample.armed)
            [Xform Sample.light
                   (placed_matrix Sample.host (self Sample.armed) Sample.light
                                  (MVec.mk (3 / 5) (4 / 5) 0)
                                  (MVec.mk (15 / 4) 0 0));
             Refresh].
Proof.
  assert (Hn : MVec.normalize (MVec.mk (3 / 5) (- 4 / 5) 0)
               = MVec.mk (3 / 5) (- 4 / 5) 0).
  { apply normalize_unit. unfold MVec.dot. simpl. field. }
  assert (Hr : _reflectionVector (MVec.mk (3 / 5) (- 4 / 5) 0) (MVec.mk 0 1 0)
               = MVec.mk (3 / 5) (4 / 5) 0).
  { rewrite _reflectionVector_formula.
    unfold MVec.sub, MVec.scale, MVec.dot. simpl. f_equal; field. }
  pose proof sample_distance as Hd.
  unfold exec. rewrite _press_run. cbn [snd].
  unfold _drag. unfold bind at 1. unfold field at 1, gets at 1.
  cbn [fst snd PlaceReflection.self _dag set_dist set_dag
       getActiveSelection Sample.host anchorPoint dragPoint modifier].
  rewrite (_place_place_run Sample.host (mkPoint 0 0 0) (mkPoint 640 360 0) _
                            Sample.light Sample.floor (MVec.mk (15 / 4) 0 0))
    with (dist := 2); try reflexivity; [|exact Hd].
  cbn [snd fst viewToWorld getClosestNormal worldMatrix translation Sample.host].
  rewrite Hn, Hr. reflexivity.
Qed.

(** Press, release and the end of the tool session leave the stored
    reflection as it is: only place mode assigns it. *)
Lemma callbacks_keep_reflection (h : Host) (s : State) :
  (_reflVector (self (exec (_press h) s)) = _reflVector (self s) /\
   _reflPoint (self (exec (_press h) s)) = _reflPoint (self s)) /\
  (_reflVector (self (exec _release s)) = _reflVector (self s) /\
   _reflPoint (self (exec _release s)) = _reflPoint (self s)) /\
  (_reflVector (self (exec _finalize s)) = _reflVector (self s) /\
   _reflPoint (self (exec _finalize s)) = _reflPoint (self s)).
Proof.
  unfold exec. rewrite _press_run, _release_run. simpl.
  destruct (getActiveSelection h); simpl; repeat split; reflexivity.
Qed.

(** C6. Whatever state the previous gesture ended in: release leaves
    the move distance and the armed flag as they are; the press of the
    next gesture leaves them too and, with an object to place selected,
    copies the move distance into the working base distance; so a
    move-mode drag of the new gesture starts from the move distance the
    previous gesture reached ([_moveDist]), not from the distance stored
    by the last placement ([_dist]). Where the drag does not apply (no
    object selected, or not armed) the move distance stays as it is. *)
Theorem move_continues_from_last_move_distance
        (h : Host) (g : Gesture) (s : State) :
  modifier g = "shift"%string \/ modifier g = "ctrl"%string ->
  let s1 := exec _release s in
  let s2 := exec (_press h) s1 in
  let s3 := exec (_drag h g) s2 in
  (_moveDist (self s1) = _moveDist (self s) /\
   _isSet (self s1) = _isSet (self s)) /\
  (_moveDist (self s2) = _moveDist (self s) /\
   _isSet (self s2) = _isSet (self s) /\
   (getActiveSelection h <> None -> _dist (self s2) = _moveDist (self s))) /\
  (getActiveSelection h <> None ->
   _isSet (self s) = true ->
   _moveDist (self s3)
   = _moveDist (self s)
     * (1 + IZR (py_int (p0 (dragPoint g)) - py_int (p0 (anchorPoint g)))
            * documented_speed (self s) (modifier g))) /\
  (getActiveSelection h = None \/ _isSet (self s) = false ->
   _moveDist (self s3) = _moveDist (self s)).
Proof.
  intros Hm s1 s2 s3.
  assert (H1 : self s1
               = set_meshDag None (set_dag None (set_view NoView (self s))))
    by reflexivity.
  assert (H2 : self s2
               = match getActiveSelection h with
                 | Some dag =>
                     set_dist (_moveDist (self s1))
                              (set_dag (Some dag) (set_view ActiveView (self s1)))
                 | None => set_dag None (set_view ActiveView (self s1))
                 end)
    by (subst s2; unfold exec; rewrite _press_run; reflexivity).
  assert (Hnone := modifier_not_none _ Hm).
  split; [split; rewrite H1; reflexivity|].
  split.
  { rewrite H2, H1. destruct (getActiveSelection h); simpl;
      repeat split; try reflexivity. intros C; now contradiction C. }
  split.
  - intros Hsel Hset. subst s3. unfold exec, _drag.
    unfold bind at 1. unfold field at 1, gets at 1. simpl.
    destruct (getActiveSelection h) as [dag|] eqn:Esel; [|contradiction].
    rewrite H2. simpl.
    change (_moveDist
              (self (exec (_place h (anchorPoint g) (dragPoint g) (modifier g)) s2))
            = _moveDist (self s)
              * (1 + IZR (py_int (p0 (dragPoint g)) - py_int (p0 (anchorPoint g)))
                     * documented_speed (self s) (modifier g))).
    rewrite _place_move_self; [|exact Hnone|rewrite H2, H1; exact Hset].
    rewrite H2, H1. reflexivity.
  - intros Hno. subst s3. unfold exec, _drag.
    unfold bind at 1. unfold field at 1, gets at 1. simpl.
    destruct (getActiveSelection h) as [dag|] eqn:Esel.
    + destruct Hno as [C|Hset]; [discriminate|].
      rewrite H2. simpl. rewrite _place_unarmed.
      * simpl. rewrite H2, H1. reflexivity.
      * exact Hnone.
      * rewrite H2, H1. exact Hset.
    + rewrite H2. simpl. rewrite H2, H1. reflexivity.
Qed.

Lemma move_continues_from_last_move_distance_witness :
  _moveDist
    (self
       (exec (_drag Sample.host
                    (mkGesture (mkPoint 100 0 0) (mkPoint 150 0 0) "shift"))
             (exec (_press Sample.host) (exec _release Sample.moved))))
  = 3 * (1 + IZR (py_int 150 - py_int 100) * (1 / 100)).
Proof.
  destruct (move_continues_from_last_move_distance
              Sample.host
              (mkGesture (mkPoint 100 0 0) (mkPoint 150 0 0) "shift")
              Sample.moved (or_introl eq_refl))
    as (_ & _ & Hdrag & _).
  apply Hdrag; [discriminate | reflexivity].
Defined.

End ReflectionPlacer.

(** * The basis of [_quatFromVector] *)

Section Basis.
Import PlaceReflection.

Variable V : MVector.
Hypothesis V_unit : MVec.dot V V = 1.
Hypothesis V_not_up : MVec.cross V worldUp <> MVec.mk 0 0 0.

Local Abbreviation a := (MVec.x V).
Local Abbreviation b := (MVec.y V).
Local Abbreviation c := (MVec.z V).
Local Abbreviation L := (horizontal_length V).

Lemma horizontal_part_pos : 0 < a * a + c * c.
Proof.
  destruct (Req_dec a 0) as [Ha|Ha]; [|nra].
  destruct (Req_dec c 0) as [Hc|Hc]; [|nra].
  exfalso. apply V_not_up. unfold worldUp, MVec.cross. simpl.
  fold a b c. rewrite Ha, Hc. f_equal; ring.
Qed.

Lemma L_pos : 0 < L.
Proof. apply sqrt_lt_R0, horizontal_part_pos. Qed.

Lemma L_sqr : L * L = a * a + c * c.
Proof. apply sqrt_def. left. apply horizontal_part_pos. Qed.

Lemma unit_sum : a * a + b * b + c * c = 1.
Proof. exact V_unit. Qed.

(** [cross1] and [cross2], in closed form. *)
Lemma cross1_eq :
  MVec.normalize (MVec.cross V worldUp) = MVec.mk (- c / L) 0 (a / L).
Proof.
  pose proof L_pos as HL.
  unfold MVec.normalize, MVec.length, MVec.cross, MVec.dot, MVec.scale, worldUp.
  simpl. fold a b c.
  replace ((b * 0 - c * 1) * (b * 0 - c * 1)
           + (c * 0 - a * 0) * (c * 0 - a * 0)
           + (a * 1 - b * 0) * (a * 1 - b * 0))
    with (a * a + c * c) by ring.
  fold L. f_equal; field; lra.
Qed.

Lemma cross2_eq :
  MVec.normalize
    (MVec.cross V (MVec.normalize (MVec.cross V worldUp)))
  = MVec.mk (a * b / L) (- L) (b * c / L).
Proof.
  pose proof L_pos as HL. pose proof L_sqr as HLL. pose proof unit_sum as Hu.
  rewrite cross1_eq.
  assert (Hc : MVec.cross V (MVec.mk (- c / L) 0 (a / L))
               = MVec.mk (a * b / L) (- L) (b * c / L)).
  { unfold MVec.cross. simpl. fold a b c. f_equal; try (field; apply Rgt_not_eq; exact HL).
    apply Rmult_eq_reg_r with L; [|apply Rgt_not_eq; exact HL].
    replace ((c * (- c / L) - a * (a / L)) * L) with (- (a * a + c * c))
      by (field; apply Rgt_not_eq; exact HL).
    rewrite <- HLL. ring. }
  rewrite Hc. apply normalize_unit.
  unfold MVec.dot. simpl.
  replace (a * b / L * (a * b / L) + - L * - L + b * c / L * (b * c / L))
    with (b * b * (a * a + c * c) / (L * L) + L * L) by (field; apply Rgt_not_eq; exact HL).
  rewrite HLL. replace (b * b * (a * a + c * c) / (a * a + c * c)) with (b * b)
    by (field; rewrite <- HLL; apply Rgt_not_eq; nra).
  lra.
Qed.

Ltac closed_rows :=
  pose proof cross1_eq as H1; pose proof cross2_eq as H2;
  unfold worldUp in H1, H2;
  unfold _quatFromVector_rows; cbv zeta; rewrite H2, H1.

Ltac poly_facts :=
  pose proof L_sqr as HLL; pose proof unit_sum as Hu;
  assert (Hi : / L * L = 1) by (apply Rinv_l, Rgt_not_eq, L_pos);
  unfold Rdiv; generalize dependent (/ L); intros i Hi.

(** The rows are orthonormal whatever the axis and the invert setting. *)
Lemma rows_orthonormal (axis : Z) (invert : bool) :
  orthonormal (_quatFromVector_rows axis invert V).
Proof.
  closed_rows. clear H1 H2. poly_facts.
  unfold orthonormal, MVec.dot.
  destruct (axis =? 0)%Z; [|destruct (axis =? 1)%Z]; destruct invert; simpl;
    fold a b c; repeat split; nsatz.
Qed.

(** They are right-handed for the x axis inverted and for the y axis
    not inverted, and left-handed in every other setting. *)
Lemma rows_handedness (axis : Z) (invert : bool) :
  if ((axis =? 0)%Z && invert) || ((axis =? 1)%Z && negb invert)
  then right_handed (_quatFromVector_rows axis invert V)
  else left_handed (_quatFromVector_rows axis invert V).
Proof.
  closed_rows. clear H1 H2. poly_facts.
  unfold right_handed, left_handed, MVec.cross, MVec.scale.
  destruct (Z.eqb_spec axis 0) as [-> | N0];
    [|destruct (Z.eqb_spec axis 1) as [-> | N1]];
    destruct invert; simpl; fold a b c;
    apply MVec_eq_intro; simpl; fold a b c; nsatz.
Qed.

End Basis.

Lemma left_handed_not_right (m : Matrix3) :
  MVec.dot (zRow m) (zRow m) = 1 -> left_handed m -> ~ right_handed m.
Proof.
  unfold left_handed, right_handed. intros Hz Hl Hr.
  rewrite Hr in Hl. destruct (zRow m) as [p q r].
  unfold MVec.dot, MVec.scale in *. simpl in *.
  injection Hl as Hp Hq Hr'. nra.
Qed.

(** For every unit vector that is not parallel to the world up vector,
    the frame of [_quatFromVector] is orthonormal; it is right-handed
    exactly for the x axis inverted and the y axis not inverted. *)
Lemma basis_frame (V : MVector) (axis : Z) (invert : bool) :
  MVec.dot V V = 1 ->
  MVec.cross V worldUp <> MVec.mk 0 0 0 ->
  let m := PlaceReflection._quatFromVector_rows axis invert V in
  orthonormal m /\
  (right_handed m <->
   ((axis =? 0)%Z && invert) || ((axis =? 1)%Z && negb invert) = true).
Proof.
  intros Hu Hn m.
  pose proof (rows_orthonormal V Hu Hn axis invert) as Ho.
  pose proof (rows_handedness V Hu Hn axis invert) as Hh.
  fold m in Ho, Hh. split; [exact Ho|].
  destruct (((axis =? 0)%Z && invert) || ((axis =? 1)%Z && negb invert)).
  - split; auto.
  - split; [|discriminate]. intros Hr. exfalso.
    apply (left_handed_not_right m); [apply Ho|exact Hh|exact Hr].
Qed.

(** C3, at the default preferences. For the unit vector (0, 0, 1), which
    is not parallel to the world up vector, axis 2 and invert set,
    [_quatFromVector] builds the rows (1,0,0), (0,1,0), (0,0,-1): an
    orthonormal frame of determinant -1, which is not right-handed. *)
Theorem default_frame_is_left_handed :
  let V := MVec.mk 0 0 1 in
  let m := PlaceReflection._quatFromVector_rows 2 true V in
  MVec.dot V V = 1 /\
  MVec.cross V worldUp <> MVec.mk 0 0 0 /\
  m = mkMatrix3 (MVec.mk 1 0 0) (MVec.mk 0 1 0) (MVec.mk 0 0 (-1)) /\
  orthonormal m /\
  det3 m = -1 /\
  ~ right_handed m.
Proof.
  intros V m.
  assert (Hu : MVec.dot V V = 1) by (unfold MVec.dot; simpl; ring).
  assert (Hn : MVec.cross V worldUp <> MVec.mk 0 0 0).
  { unfold MVec.cross, worldUp. simpl. intros C. injection C as C _ _. lra. }
  assert (Hm : m = mkMatrix3 (MVec.mk 1 0 0) (MVec.mk 0 1 0) (MVec.mk 0 0 (-1))).
  { subst m. unfold PlaceReflection._quatFromVector_rows. cbv zeta.
    assert (H1 : MVec.normalize (MVec.cross V (MVec.mk 0 1 0)) = MVec.mk (-1) 0 0).
    { rewrite normalize_unit.
      - unfold MVec.cross. simpl. f_equal; ring.
      - unfold MVec.cross, MVec.dot. simpl. ring. }
    rewrite H1.
    assert (H2 : MVec.normalize (MVec.cross V (MVec.mk (-1) 0 0)) = MVec.mk 0 (-1) 0).
    { rewrite normalize_unit.
      - unfold MVec.cross. simpl. f_equal; ring.
      - unfold MVec.cross, MVec.dot. simpl. ring. }
    rewrite H2. simpl. f_equal; f_equal; ring. }
  destruct (basis_frame V 2 true Hu Hn) as [Ho Hh]. fold m in Ho, Hh.
  repeat split; try assumption; try apply Ho.
  - rewrite Hm. unfold det3, MVec.cross, MVec.dot. simpl. ring.
  - intros Hr. apply Hh in Hr. discriminate.
Qed.

(** * The quick-zoom tool *)

Section ViewFramer.
Import QuickZoom.

Arguments _isHorizontal : simpl never.
Arguments _getZoom : simpl never.
Arguments _zoomView : simpl never.
Arguments _pan : simpl never.

(** [_isHorizontal] and [_getZoom] only read. *)
Lemma _isHorizontal_state (s : State) : snd (_isHorizontal s) = s.
Proof.
  unfold _isHorizontal. run_monad.
  destruct (Req_dec_T (_height (self s)) 0); simpl; [reflexivity|].
  destruct (_mfn (self s)) eqn:E; simpl; rewrite ?E; reflexivity.
Qed.

Lemma _isHorizontal_returns (s : State) (cam : string) :
  _mfn (self s) = Some cam ->
  _height (self s) <> 0 ->
  exists horizontal, _isHorizontal s = (Return horizontal, s).
Proof.
  intros Hc Hh. unfold _isHorizontal. run_monad.
  destruct (Req_dec_T (_height (self s)) 0); [contradiction|]. simpl.
  rewrite Hc. simpl. rewrite Hc. simpl. eexists. reflexivity.
Qed.


(** A drag region without extent has zoom factor zero. *)
Lemma _getZoom_empty_region (s : State) (z : R) :
  fst (_getZoom s) = Return z ->
  _startX (self s) = _endX (self s) ->
  _startY (self s) = _endY (self s) ->
  z = 0.
Proof.
  intros Hz Hx Hy. revert Hz. unfold _getZoom.
  unfold bind at 1. unfold field at 1, gets at 1.
  unfold bind at 1. unfold field at 1, gets at 1.
  unfold bind at 1.
  pose proof (_isHorizontal_state s) as Hs.
  destruct (_isHorizontal s) as [[h1|e] s1]; simpl in Hs; subst s1;
    [|discriminate].
  run_monad.
  pose proof (_isHorizontal_state s) as Hs.
  destruct (_isHorizontal s) as [[h2|e] s2]; simpl in Hs; subst s2;
    [|discriminate].
  rewrite Hx, Hy.
  assert (Hsize : forall n : Z,
             (if (n >? n)%Z then (n - n)%Z else (n - n)%Z) = 0%Z)
    by (intros n; destruct (n >? n)%Z; lia).
  destruct h2; simpl.
  - destruct (Req_dec_T (_width (self s)) 0); simpl; [discriminate|].
    intros [= <-]. destruct h1; simpl; rewrite Hsize; unfold Rdiv; ring.
  - destruct (Req_dec_T (_height (self s)) 0); simpl; [discriminate|].
    intros [= <-]. destruct h1; simpl; rewrite Hsize; unfold Rdiv; ring.
Qed.

Lemma _getZoom_returns (s : State) (cam : string) :
  _mfn (self s) = Some cam ->
  _width (self s) <> 0 ->
  _height (self s) <> 0 ->
  exists z, _getZoom s = (Return z, s).
Proof.
  intros Hc Hw Hh.
  destruct (_isHorizontal_returns s cam Hc Hh) as [hz Hhz].
  unfold _getZoom.
  unfold bind at 1. unfold field at 1, gets at 1.
  unfold bind at 1. unfold field at 1, gets at 1.
  unfold bind at 1. rewrite Hhz.
  run_monad. rewrite Hhz.
  destruct hz; simpl.
  - destruct (Req_dec_T (_width (self s)) 0); [contradiction|].
    eexists; reflexivity.
  - destruct (Req_dec_T (_height (self s)) 0); [contradiction|].
    eexists; reflexivity.
Qed.

Arguments writeAttr : simpl never.

Lemma self_writeAttr cam a s : self (writeAttr cam a s) = self s.
Proof. reflexivity. Qed.

Lemma effects_writeAttr cam a s :
  effects (world (writeAttr cam a s))
  = (effects (world s) ++ [SetAttr cam a])%list.
Proof. reflexivity. Qed.

(** What [_zoomView] does once a perspective press has stored the
    camera and a view of non-zero size. *)
Lemma _zoomView_returns (s : State) (cam : string) :
  _mfn (self s) = Some cam ->
  _width (self s) <> 0 ->
  _height (self s) <> 0 ->
  _ratio (self s) <> 0 ->
  exists (panX panY v : R) (s' : State),
    _zoomView s = (Return tt, s') /\
    self s' = self s /\
    effects (world s')
    = (effects (world s)
       ++ [SetAttr cam (PanZoomEnabled true);
           SetAttr cam (HorizontalPan panX);
           SetAttr cam (VerticalPan panY);
           SetAttr cam (Zoom v)])%list /\
    0 < v /\
    (_startX (self s) = _endX (self s) ->
     _startY (self s) = _endY (self s) -> v = 1 / 100).
Proof.
  intros Hc Hw Hh Hr.
  destruct (_isHorizontal_returns s cam Hc Hh) as [hz Hhz].
  assert (Hwr : _width (self s) / _ratio (self s) <> 0).
  { unfold Rdiv. apply Rmult_integral_contrapositive_currified;
      [exact Hw | apply Rinv_neq_0_compat, Hr]. }
  assert (Hhr : _height (self s) * _ratio (self s) <> 0)
    by (apply Rmult_integral_contrapositive_currified; assumption).
  assert (Hclamp : forall x : R,
             0 < (if Rle_dec x 0 then 1 / 100 else x)).
  { intros x. destruct (Rle_dec x 0); lra. }
  assert (Hfloor : forall z x : R,
             z = 0 -> (if Rle_dec (z * x) 0 then 1 / 100 else z * x) = 1 / 100).
  { intros z x ->. destruct (Rle_dec (0 * x) 0); [reflexivity|lra]. }
  unfold _zoomView. run_monad.
  repeat (first [rewrite Hc | rewrite Hhz | progress simpl]).
  destruct hz.
  - destruct (Req_dec_T (_ratio (self s)) 0) as [C|_]; [contradiction|].
    repeat (first [rewrite Hc | rewrite Hhz | progress simpl]).
    destruct (Req_dec_T (_width (self s)) 0) as [C|_]; [contradiction|].
    repeat (first [rewrite Hc | rewrite Hhz | progress simpl]).
    destruct (Req_dec_T (_width (self s) / _ratio (self s)) 0) as [C|_];
      [contradiction|].
    repeat (first [rewrite Hc | rewrite Hhz | progress simpl]).
    match goal with
    | |- context [_getZoom ?s3] =>
        destruct (_getZoom_returns s3 cam Hc Hw Hh) as [z Hz];
        pose proof (_getZoom_empty_region s3 z) as Hempty;
        rewrite Hz in *
    end.
    do 4 eexists. split; [reflexivity|].
    split; [reflexivity|]. split.
    { rewrite !effects_writeAttr, <- !app_assoc. reflexivity. }
    split; [apply Hclamp|].
    intros Hx Hy. apply Hfloor. apply Hempty; [reflexivity | exact Hx | exact Hy].
  - repeat (first [rewrite Hc | rewrite Hhz | progress simpl]).
    destruct (Req_dec_T (_height (self s) * _ratio (self s)) 0) as [C|_];
      [contradiction|].
    repeat (first [rewrite Hc | rewrite Hhz | progress simpl]).
    destruct (Req_dec_T (_height (self s)) 0) as [C|_]; [contradiction|].
    repeat (first [rewrite Hc | rewrite Hhz | progress simpl]).
    match goal with
    | |- context [_getZoom ?s3] =>
        destruct (_getZoom_returns s3 cam Hc Hw Hh) as [z Hz];
        pose proof (_getZoom_empty_region s3 z) as Hempty;
        rewrite Hz in *
    end.
    do 4 eexists. split; [reflexivity|].
    split; [reflexivity|]. split.
    { rewrite !effects_writeAttr, <- !app_assoc. reflexivity. }
    split; [apply Hclamp|].
    intros Hx Hy. apply Hfloor. apply Hempty; [reflexivity | exact Hx | exact Hy].
Qed.


(** C10. In a drag update with shift the tool pans only when the
    camera's [panZoomEnabled] is already set: with the flag off, the
    update stores the drag points and leaves the world, cameras and
    effects, as it was; and whenever such an update changes the world,
    the flag was on. *)
Theorem shift_drag_pans_only_when_enabled (g : Gesture) (s : State) :
  modifier g = "shift"%string ->
  (forall cam : string,
      _mfn (self s) = Some cam ->
      panZoomEnabled (cameras (world s) cam) = false ->
      _drag g s
      = (Return tt,
         mkState
           (set_points (py_int (p0 (anchorPoint g))) (py_int (p1 (anchorPoint g)))
                       (py_int (p0 (dragPoint g))) (py_int (p1 (dragPoint g)))
                       (self s))
           (world s))) /\
  (world (exec (_drag g) s) <> world s ->
   exists cam : string,
     _mfn (self s) = Some cam /\
     panZoomEnabled (cameras (world s) cam) = true).
Proof.
  intros Hm. split.
  - intros cam Hc Hoff. unfold _drag. rewrite Hm. run_monad.
    rewrite Hc. simpl. rewrite Hoff. reflexivity.
  - unfold exec, _drag. rewrite Hm. run_monad.
    destruct (_mfn (self s)) as [cam|] eqn:Hc; simpl.
    + destruct (panZoomEnabled (cameras (world s) cam)) eqn:Hon.
      * intros _. exists cam. split; [reflexivity | exact Hon].
      * simpl. intros C. now contradiction C.
    + intros C. now contradiction C.
Qed.

Lemma shift_drag_pans_only_when_enabled_witness :
  _drag Sample.shiftDrag Sample.framed
  = (Return tt,
     mkState
       (set_points (py_int 100) (py_int 100) (py_int 50) (py_int 100)
                   (self Sample.framed))
       (world Sample.framed)).
Proof.
  apply (proj1 (shift_drag_pans_only_when_enabled
                  Sample.shiftDrag Sample.framed eq_refl)
               "perspShape"%string); reflexivity.
Defined.

(** A press in an orthographic view stores the camera and does nothing
    else: the world is as it was. *)
Lemma ortho_press_writes_nothing (g : Gesture) (s : State) :
  isOrtho (cameras (world s) (activeCamera (world s))) = true ->
  _press g s
  = (Return tt, mkState (set_mfn (Some (activeCamera (world s))) (self s)) (world s)).
Proof.
  intros Ho. unfold _press. run_monad. rewrite Ho. reflexivity.
Qed.

(** A shift drag on an orthographic camera whose pan/zoom is enabled:
    the press returns after its check, the drag pans. *)
Lemma ortho_shift_drag_writes_pan :
  let s0 := mkState __init__ Sample.orthoWorld in
  let s1 := exec (_press Sample.shiftDrag) s0 in
  let s2 := exec (_drag Sample.shiftDrag) s1 in
  let s3 := exec (_release Sample.shiftDrag) s2 in
  effects (world s1) = [] /\
  effects (world s3)
  = [SetAttr "topShape" (HorizontalPan (81 / 2000));
     SetAttr "topShape" (VerticalPan 0);
     Refresh] /\
  horizontalPan (cameras (world s3) "topShape") = 81 / 2000.
Proof.
  intros s0 s1 s2 s3.
  assert (H1 : s1 = mkState (set_mfn (Some "topShape"%string) __init__)
                            Sample.orthoWorld) by reflexivity.
  assert (H3 : s3 = s2) by reflexivity.
  split; [rewrite H1; reflexivity|].
  rewrite H3. subst s2. rewrite H1.
  unfold exec, _drag, _pan. run_monad. rewrite !py_int_IZR.
  unfold writeAttr. simpl.
  replace (0 + 50 * (81 / 100000) * 1) with (81 / 2000) by lra.
  replace (0 + 0 * (81 / 100000) * 1) with 0 by lra.
  split; reflexivity.
Qed.

(** A plain drag in an orthographic view, after a gesture in a
    perspective view has stored its size: the release writes all four
    attributes of the orthographic camera. *)
Lemma ortho_release_writes_zoom :
  let s0 := mkState (self Sample.framed) Sample.orthoWorld in
  let s1 := exec (_press Sample.plainDrag) s0 in
  let s2 := exec (_drag Sample.plainDrag) s1 in
  let s3 := exec (_release Sample.plainDrag) s2 in
  effects (world s2) = [] /\
  exists panX panY v : R,
    effects (world s3)
    = [SetAttr "topShape" (PanZoomEnabled true);
       SetAttr "topShape" (HorizontalPan panX);
       SetAttr "topShape" (VerticalPan panY);
       SetAttr "topShape" (Zoom v);
       InViewMessage RESET_MESSAGE].
Proof.
  intros s0 s1 s2 s3.
  assert (H2 : s2 = mkState
                      (set_points (py_int 960) (py_int 540)
                                  (py_int 1440) (py_int 810)
                                  (set_mfn (Some "topShape"%string)
                                           (self Sample.framed)))
                      Sample.orthoWorld) by reflexivity.
  split; [rewrite H2; reflexivity|].
  destruct (_zoomView_returns s2 "topShape")
    as (panX & panY & v & s' & Hrun & _ & Heff & _);
    try (rewrite H2; reflexivity); try (rewrite H2; simpl; lra).
  exists panX, panY, v. subst s3. unfold exec, _release. simpl.
  unfold bind. rewrite Hrun. simpl. rewrite Heff, H2. reflexivity.
Qed.

(** The same plain drag with a fresh tool: the release raises. *)
Lemma ortho_release_raises_when_fresh :
  let s0 := mkState __init__ Sample.orthoWorld in
  let s1 := exec (_press Sample.plainDrag) s0 in
  let s2 := exec (_drag Sample.plainDrag) s1 in
  fst (_release Sample.plainDrag s2) = Raise ZeroDivisionError.
Proof.
  intros s0 s1 s2.
  assert (H2 : s2 = mkState
                      (set_points (py_int 960) (py_int 540)
                                  (py_int 1440) (py_int 810)
                                  (set_mfn (Some "topShape"%string) __init__))
                      Sample.orthoWorld) by reflexivity.
  rewrite H2. unfold _release, _zoomView, _isHorizontal. run_monad.
  destruct (Req_dec_T 0 0) as [_|C]; [reflexivity | now contradiction C].
Qed.

(** C4. Gestures on an orthographic camera are not without effect: the
    press returns after its check, but the drag and the release do not
    repeat it. A shift drag from (100, 100) to (50, 100) on an
    orthographic camera whose pan/zoom is enabled writes the camera's
    horizontal and vertical pan; a plain drag, once a gesture in a
    perspective view has stored its size, writes [panZoomEnabled], both
    pans and the zoom of the orthographic camera. *)
Theorem ortho_gesture_writes_camera :
  isOrtho Sample.orthoCamera = true /\
  (let s0 := mkState __init__ Sample.orthoWorld in
   let s3 := exec (_release Sample.shiftDrag)
                  (exec (_drag Sample.shiftDrag)
                        (exec (_press Sample.shiftDrag) s0)) in
   effects (world s3)
   = [SetAttr "topShape" (HorizontalPan (81 / 2000));
      SetAttr "topShape" (VerticalPan 0);
      Refresh]) /\
  (let s0 := mkState (self Sample.framed) Sample.orthoWorld in
   let s3 := exec (_release Sample.plainDrag)
                  (exec (_drag Sample.plainDrag)
                        (exec (_press Sample.plainDrag) s0)) in
   exists panX panY v : R,
     effects (world s3)
     = [SetAttr "topShape" (PanZoomEnabled true);
        SetAttr "topShape" (HorizontalPan panX);
        SetAttr "topShape" (VerticalPan panY);
        SetAttr "topShape" (Zoom v);
        InViewMessage RESET_MESSAGE]).
Proof.
  split; [reflexivity|]. split.
  - exact (proj1 (proj2 ortho_shift_drag_writes_pan)).
  - exact (proj2 ortho_release_writes_zoom).
Qed.

End ViewFramer.

(** * Further properties of the reflection placer *)

Section ReflectionGeometry.
Import PlaceReflection.

Lemma _reflectionVector_dot (V N : MVector) :
  MVec.dot N N = 1 ->
  MVec.dot (_reflectionVector V N) (_reflectionVector V N) = MVec.dot V V /\
  MVec.dot (_reflectionVector V N) N = - MVec.dot V N.
Proof.
  destruct V as [vx vy vz], N as [nx ny nz].
  unfold _reflectionVector, MVec.dot, MVec.sub, MVec.scale. simpl.
  intros HN. split; nsatz.
Qed.

(** X1. Reflecting on a unit normal keeps the length of the view vector
    and flips its component along the normal. *)
Theorem reflection_keeps_length_flips_normal (V N : MVector) :
  MVec.dot N N = 1 ->
  MVec.length (_reflectionVector V N) = MVec.length V /\
  MVec.dot (_reflectionVector V N) N = - MVec.dot V N.
Proof.
  intros HN. destruct (_reflectionVector_dot V N HN) as [Hl Hn].
  split; [|exact Hn]. unfold MVec.length. now rewrite Hl.
Qed.

Lemma reflection_keeps_length_flips_normal_witness :
  MVec.length (_reflectionVector (MVec.mk (3 / 5) (- 4 / 5) 0) (MVec.mk 0 1 0))
  = MVec.length (MVec.mk (3 / 5) (- 4 / 5) 0) /\
  MVec.dot (_reflectionVector (MVec.mk (3 / 5) (- 4 / 5) 0) (MVec.mk 0 1 0))
           (MVec.mk 0 1 0)
  = - MVec.dot (MVec.mk (3 / 5) (- 4 / 5) 0) (MVec.mk 0 1 0).
Proof.
  apply (reflection_keeps_length_flips_normal
           (MVec.mk (3 / 5) (- 4 / 5) 0) (MVec.mk 0 1 0)).
  unfold MVec.dot. simpl. ring.
Defined.

(** X2. Reflecting twice on the same unit normal gives the vector back. *)
Theorem reflection_involution (V N : MVector) :
  MVec.dot N N = 1 ->
  _reflectionVector (_reflectionVector V N) N = V.
Proof.
  destruct V as [vx vy vz], N as [nx ny nz].
  unfold _reflectionVector, MVec.dot, MVec.sub, MVec.scale. simpl.
  intros HN. f_equal; nsatz.
Qed.

Lemma reflection_involution_witness :
  _reflectionVector
    (_reflectionVector (MVec.mk (3 / 5) (- 4 / 5) 0) (MVec.mk 0 1 0))
    (MVec.mk 0 1 0)
  = MVec.mk (3 / 5) (- 4 / 5) 0.
Proof.
  apply (reflection_involution (MVec.mk (3 / 5) (- 4 / 5) 0) (MVec.mk 0 1 0)).
  unfold MVec.dot. simpl. ring.
Defined.

Lemma sum_sqr_nonneg (u v w : R) : 0 <= u * u + v * v + w * w.
Proof. nra. Qed.

Lemma math_pow_2_swap (a b : R) : math_pow (a - b) 2 = math_pow (b - a) 2.
Proof.
  unfold math_pow. replace ((a - b) ^ 2) with ((b - a) ^ 2) by ring.
  reflexivity.
Qed.

Lemma _distance_symmetric (p q : MPoint) : _distance p q = _distance q p.
Proof.
  unfold _distance.
  rewrite (math_pow_2_swap (MVec.x p)), (math_pow_2_swap (MVec.y p)),
    (math_pow_2_swap (MVec.z p)).
  reflexivity.
Qed.

Lemma _distance_nonneg (p q : MPoint) (d : R) :
  _distance p q = Return d -> 0 <= d.
Proof.
  destruct (_distance_cases p q) as [[_ H] | [_ H]]; rewrite H; intros E;
    [|discriminate].
  injection E as <-. apply sqrt_pos.
Qed.




(** A point at 10^200 on the x axis is too far from the origin for
    [_distance]. *)
Lemma _distance_overflow_example :
  _distance (MVec.mk (IZR (10 ^ 200)) 0 0) (MVec.mk 0 0 0)
  = Raise OverflowError.
Proof.
  apply _distance_out_of_range. intros (H & _). cbn [MVec.x] in H.
  remember (10 ^ 200)%Z as big eqn:Hbig.
  replace ((IZR big - 0) ^ 2) with (IZR (big * big)) in H
    by (rewrite mult_IZR; ring).
  unfold DBL_OVERFLOW in H. apply lt_IZR in H. subst big.
  vm_compute in H. discriminate.
Qed.

Lemma normalize_is_unit (v : MVector) :
  MVec.dot v v <> 0 ->
  MVec.dot (MVec.normalize v) (MVec.normalize v) = 1.
Proof.
  intros Hv.
  assert (Hpos : 0 < MVec.dot v v).
  { pose proof (sum_sqr_nonneg (MVec.x v) (MVec.y v) (MVec.z v)) as H.
    unfold MVec.dot in *. lra. }
  assert (Hl : 0 < MVec.length v) by (apply sqrt_lt_R0, Hpos).
  assert (Hll : MVec.length v * MVec.length v = MVec.dot v v)
    by (apply sqrt_def; lra).
  unfold MVec.normalize.
  generalize dependent (MVec.length v). intros l Hl Hll.
  unfold MVec.dot, MVec.scale in *. simpl.
  replace (/ l * MVec.x v * (/ l * MVec.x v) + / l * MVec.y v * (/ l * MVec.y v)
           + / l * MVec.z v * (/ l * MVec.z v))
    with ((MVec.x v * MVec.x v + MVec.y v * MVec.y v + MVec.z v * MVec.z v)
          / (l * l))
    by (field; apply Rgt_not_eq; exact Hl).
  rewrite <- Hll. field. apply Rgt_not_eq. exact Hl.
Qed.

Lemma _distance_along_unit (p : MPoint) (R0 : MVector) (d : R) :
  MVec.dot R0 R0 = 1 -> 0 <= d -> d ^ 2 < DBL_OVERFLOW ->
  _distance p ((d *v R0) +v p) = Return d.
Proof.
  intros Hu Hd Hr. rewrite _distance_in_range.
  - f_equal. unfold MVec.length, MVec.dot, MVec.sub, MVec.add, MVec.scale in *.
    simpl in *.
    replace ((MVec.x p - (d * MVec.x R0 + MVec.x p))
             * (MVec.x p - (d * MVec.x R0 + MVec.x p))
             + (MVec.y p - (d * MVec.y R0 + MVec.y p))
               * (MVec.y p - (d * MVec.y R0 + MVec.y p))
             + (MVec.z p - (d * MVec.z R0 + MVec.z p))
               * (MVec.z p - (d * MVec.z R0 + MVec.z p)))
      with (d * d * (MVec.x R0 * MVec.x R0 + MVec.y R0 * MVec.y R0
                     + MVec.z R0 * MVec.z R0)) by ring.
    rewrite Hu, Rmult_1_r. apply sqrt_square. exact Hd.
  - unfold squares_in_range, MVec.dot, MVec.add, MVec.scale in *. simpl in *.
    assert (Hc : forall c : R, c * c <= 1 -> (d * c) * (d * c) <= d * d).
    { intros c Hc. replace (d * c * (d * c)) with ((d * d) * (c * c)) by ring.
      rewrite <- (Rmult_1_r (d * d)) at 2.
      apply Rmult_le_compat_l; [nra | exact Hc]. }
    pose proof (Rle_0_sqr (MVec.x R0)) as Hx. unfold Rsqr in Hx.
    pose proof (Rle_0_sqr (MVec.y R0)) as Hy. unfold Rsqr in Hy.
    pose proof (Rle_0_sqr (MVec.z R0)) as Hz. unfold Rsqr in Hz.
    pose proof (Hc (MVec.x R0)) as Cx.
    pose proof (Hc (MVec.y R0)) as Cy.
    pose proof (Hc (MVec.z R0)) as Cz.
    replace (MVec.x p - (d * MVec.x R0 + MVec.x p)) with (- (d * MVec.x R0))
      by ring.
    replace (MVec.y p - (d * MVec.y R0 + MVec.y p)) with (- (d * MVec.y R0))
      by ring.
    replace (MVec.z p - (d * MVec.z R0 + MVec.z p)) with (- (d * MVec.z R0))
      by ring.
    repeat split; lra.
Qed.

End ReflectionGeometry.

Section PlaceMode.
Import PlaceReflection.

Lemma _getMesh_run (h : Host) (xPos yPos : Z) (s : State) (dag : Dag) :
  _dag (self s) = Some dag ->
  _getMesh h xPos yPos s
  = (Return
       match selectFromScreen h xPos yPos with
       | None => None
       | Some picked =>
           if (String.eqb picked dag
               && match _meshDag (self s) with Some _ => true | None => false end)%bool
           then _meshDag (self s)
           else if hasFnMesh h (extendToShape h picked)
                then Some (extendToShape h picked)
                else None
       end,
     s).
Proof.
  intros Hd. unfold _getMesh, _asDagPath.
  destruct (selectFromScreen h xPos yPos) as [picked|]; [|reflexivity].
  run_monad. rewrite Hd.
  destruct (String.eqb picked dag && _)%bool; [reflexivity|].
  destruct (hasFnMesh h (extendToShape h picked)); reflexivity.
Qed.

(** X4. While the object that is being placed passes under the cursor and
    a mesh is remembered from this gesture, [_getMesh] answers the
    remembered mesh, whatever the picked object is; with nothing under
    the cursor, or something that is not a mesh, it answers [None];
    otherwise the shape under the cursor. It never assigns a field. *)
Theorem _getMesh_keeps_last_mesh
        (h : Host) (xPos yPos : Z) (s : State) (dag : Dag) :
  _dag (self s) = Some dag ->
  (forall mesh : Dag,
      selectFromScreen h xPos yPos = Some dag ->
      _meshDag (self s) = Some mesh ->
      _getMesh h xPos yPos s = (Return (Some mesh), s)) /\
  (selectFromScreen h xPos yPos = None ->
   _getMesh h xPos yPos s = (Return None, s)) /\
  (forall picked : Dag,
      selectFromScreen h xPos yPos = Some picked ->
      picked <> dag \/ _meshDag (self s) = None ->
      _getMesh h xPos yPos s
      = (Return (if hasFnMesh h (extendToShape h picked)
                 then Some (extendToShape h picked) else None), s)).
Proof.
  intros Hd. rewrite (_getMesh_run h xPos yPos s dag Hd). repeat split.
  - intros mesh -> Hm. rewrite Hm, String.eqb_refl. reflexivity.
  - intros ->. reflexivity.
  - intros picked -> [Hne | Hm].
    + apply String.eqb_neq in Hne. rewrite Hne. reflexivity.
    + rewrite Hm, Bool.andb_false_r. reflexivity.
Qed.

Lemma _getMesh_keeps_last_mesh_witness :
  _getMesh Sample.host 0 0 Sample.armed
  = (Return (if hasFnMesh Sample.host (extendToShape Sample.host "|floor"%string)
             then Some (extendToShape Sample.host "|floor"%string) else None),
     Sample.armed).
Proof.
  apply (proj2 (proj2 (_getMesh_keeps_last_mesh
                         Sample.host 0%Z 0%Z Sample.armed Sample.light eq_refl))
               "|floor"%string eq_refl).
  left. discriminate.
Defined.

Lemma _place_no_mesh (h : Host) (startPoint point : ScreenPoint) (s : State) :
  _getMesh h (py_int (p0 point)) (py_int (p1 point)) s = (Return None, s) ->
  _place h startPoint point "none" s = (Return tt, s).
Proof.
  intros Hmesh. unfold _place. simpl String.eqb. cbv iota.
  unfold bind at 1. unfold place_mode. unfold bind at 1. rewrite Hmesh.
  reflexivity.
Qed.

Lemma _place_no_hit (h : Host) (startPoint point : ScreenPoint) (s : State)
      (mesh : Dag) :
  let xPos := py_int (p0 point) in
  let yPos := py_int (p1 point) in
  _getMesh h xPos yPos s = (Return (Some mesh), s) ->
  closestIntersection h mesh
    (fst (viewToWorld h (_view (self s)) xPos yPos))
    (MVec.normalize (snd (viewToWorld h (_view (self s)) xPos yPos))) = None ->
  _place h startPoint point "none" s
  = (Return tt, mkState (set_meshDag (Some mesh) (self s)) (effects s)).
Proof.
  intros xPos yPos Hmesh Hhit. unfold _place. fold xPos yPos.
  simpl String.eqb. cbv iota.
  unfold bind at 1. unfold place_mode. unfold bind at 1. rewrite Hmesh.
  run_monad.
  destruct (viewToWorld h (_view (self s)) xPos yPos) as [wp wv].
  simpl in Hhit. unfold _closestIntersection. rewrite Hhit. reflexivity.
Qed.

(** X5. Place mode fails silently. With no mesh under the cursor the drag
    update changes nothing; with a mesh that the view ray misses it only
    remembers the mesh: nothing is placed, and the armed flag, the stored
    reflection and the distances stay as they were. *)
Theorem place_mode_miss_is_silent
        (h : Host) (startPoint point : ScreenPoint) (s : State) :
  let xPos := py_int (p0 point) in
  let yPos := py_int (p1 point) in
  (fst (_getMesh h xPos yPos s) = Return None ->
   _place h startPoint point "none" s = (Return tt, s)) /\
  (forall mesh : Dag,
      fst (_getMesh h xPos yPos s) = Return (Some mesh) ->
      closestIntersection h mesh
        (fst (viewToWorld h (_view (self s)) xPos yPos))
        (MVec.normalize (snd (viewToWorld h (_view (self s)) xPos yPos)))
      = None ->
      _place h startPoint point "none" s
      = (Return tt, mkState (set_meshDag (Some mesh) (self s)) (effects s))).
Proof.
  intros xPos yPos.
  pose proof (_getMesh_state h xPos yPos s) as Hst.
  destruct (_getMesh h xPos yPos s) as [r s0] eqn:E. simpl in Hst. subst s0.
  split.
  - simpl. intros ->. now apply _place_no_mesh.
  - simpl. intros mesh -> Hhit. now apply _place_no_hit.
Qed.

Lemma place_mode_miss_is_silent_witness :
  _place Sample.nothingUnderCursor (mkPoint 0 0 0) (mkPoint 640 360 0) "none"
         Sample.armed
  = (Return tt, Sample.armed).
Proof.
  apply (proj1 (place_mode_miss_is_silent
                  Sample.nothingUnderCursor (mkPoint 0 0 0) (mkPoint 640 360 0)
                  Sample.armed)).
  reflexivity.
Defined.

(** X6. A placement keeps the distance of the object to the surface.
    For a view vector that is not zero and a unit normal, with the
    translation affected: where [_distance] returns the distance of the
    object to the hit point, and the square of that distance is in the
    range of a double, the update places the object, and the position it
    hands to [cmds.xform] is at the same distance from the hit point;
    where [_distance] raises, the update raises and places nothing. *)
Theorem place_keeps_distance
        (h : Host) (startPoint point : ScreenPoint) (s : State)
        (dag mesh : Dag) (hitPoint : MPoint) :
  let xPos := py_int (p0 point) in
  let yPos := py_int (p1 point) in
  let worldPt := fst (viewToWorld h (_view (self s)) xPos yPos) in
  let worldVector := snd (viewToWorld h (_view (self s)) xPos yPos) in
  fst (_getMesh h xPos yPos s) = Return (Some mesh) ->
  _dag (self s) = Some dag ->
  closestIntersection h mesh worldPt (MVec.normalize worldVector)
  = Some hitPoint ->
  MVec.dot worldVector worldVector <> 0 ->
  MVec.dot (getClosestNormal h mesh hitPoint)
           (getClosestNormal h mesh hitPoint) = 1 ->
  _translate (self s) = true ->
  (forall d : R,
      _distance hitPoint (translation (worldMatrix h dag)) = Return d ->
      d ^ 2 < DBL_OVERFLOW ->
      exists matrix : MTransformationMatrix,
        effects (exec (_place h startPoint point "none") s)
        = (effects s ++ [Xform dag matrix; Refresh])%list /\
        _distance hitPoint (translation matrix) = Return d) /\
  (forall e : exn,
      _distance hitPoint (translation (worldMatrix h dag)) = Raise e ->
      fst (_place h startPoint point "none" s) = Raise e /\
      effects (exec (_place h startPoint point "none") s) = effects s).
Proof.
  intros xPos yPos worldPt worldVector Hmesh Hdag Hhit Hv Hn Ht.
  pose proof (_getMesh_state h xPos yPos s) as Hst.
  destruct (_getMesh h xPos yPos s) as [r s0] eqn:E. simpl in Hst, Hmesh.
  subst s0 r.
  split.
  - intros d Hd Hr. unfold exec.
    rewrite (_place_place_run h startPoint point s dag mesh hitPoint
                              E Hdag Hhit d Hd).
    cbn [snd PlaceReflection.effects]. eexists. split; [reflexivity|].
    unfold placed_matrix.
    cbn [_translate _rotate _moveDist set_isSet set_moveDist set_dist
         set_reflVector set_reflPoint set_meshDag].
    rewrite Ht.
    assert (Htr : forall q m, translation
                    (if _rotate (self s) then setRotation q m else m)
                  = translation m)
      by (intros; destruct (_rotate (self s)); reflexivity).
    rewrite Htr. cbn [translation setTranslation].
    apply _distance_along_unit.
    + destruct (_reflectionVector_dot
                  (MVec.normalize worldVector)
                  (getClosestNormal h mesh hitPoint) Hn) as [Hlen _].
      fold xPos yPos. fold worldVector. rewrite Hlen.
      apply normalize_is_unit. exact Hv.
    + exact (_distance_nonneg _ _ _ Hd).
    + exact Hr.
  - intros e He. unfold exec.
    rewrite (_place_place_overflow h startPoint point s dag mesh hitPoint e
                                   E Hdag Hhit He).
    split; reflexivity.
Qed.

Lemma place_keeps_distance_witness :
  exists matrix : MTransformationMatrix,
    effects (exec (_place Sample.host (mkPoint 0 0 0) (mkPoint 640 360 0) "none")
                  Sample.armed)
    = ([] ++ [Xform Sample.light matrix; Refresh])%list /\
    _distance (MVec.mk (15 / 4) 0 0) (translation matrix) = Return 2.
Proof.
  refine (proj1 (place_keeps_distance
                   Sample.host (mkPoint 0 0 0) (mkPoint 640 360 0)
                   Sample.armed Sample.light Sample.floor
                   (MVec.mk (15 / 4) 0 0) eq_refl eq_refl eq_refl _ _ eq_refl)
                2 sample_distance _).
  - unfold MVec.dot. cbn [snd viewToWorld Sample.host MVec.x MVec.y MVec.z]. lra.
  - unfold MVec.dot. cbn [getClosestNormal Sample.host MVec.x MVec.y MVec.z]. lra.
  - pose proof DBL_OVERFLOW_large. lra.
Defined.

End PlaceMode.

Section PlacerSessions.
Import PlaceReflection.

Lemma _drag_no_target (h : Host) (g : Gesture) (s : State) :
  _dag (self s) = None -> _drag h g s = (Return tt, s).
Proof. intros Hd. unfold _drag. run_monad. rewrite Hd. reflexivity. Qed.

Lemma _drag_target (h : Host) (g : Gesture) (s : State) (dag : Dag) :
  _dag (self s) = Some dag ->
  _drag h g s = _place h (anchorPoint g) (dragPoint g) (modifier g) s.
Proof. intros Hd. unfold _drag. run_monad. rewrite Hd. reflexivity. Qed.

(** X7. With no object selected at press, the gesture does nothing: the
    press only takes the view, and whatever drag updates follow, with
    whatever modifier, leave every field and the scene as the press left
    them. *)
Theorem gesture_without_target_is_noop
        (h : Host) (s : State) (es : list PlacerEvent) :
  getActiveSelection h = None ->
  Forall is_drag es ->
  exec (_press h) s
  = mkState (set_dag None (set_view ActiveView (self s))) (effects s) /\
  placer_run es (exec (_press h) s) = exec (_press h) s.
Proof.
  intros Hsel Hes.
  assert (Hp : exec (_press h) s
               = mkState (set_dag None (set_view ActiveView (self s))) (effects s))
    by (unfold exec; rewrite _press_run, Hsel; reflexivity).
  split; [exact Hp|]. rewrite Hp.
  induction Hes as [|e es He _ IH]; [reflexivity|].
  destruct e as [|h' g| |]; try contradiction.
  simpl. unfold exec. rewrite _drag_no_target by reflexivity. exact IH.
Qed.

Lemma gesture_without_target_is_noop_witness :
  placer_run [Drag Sample.host (mkGesture (mkPoint 0 0 0) (mkPoint 9 9 0) "none")]
             (exec (_press Sample.nothingSelected) Sample.moved)
  = exec (_press Sample.nothingSelected) Sample.moved.
Proof.
  refine (proj2 (gesture_without_target_is_noop
                   Sample.nothingSelected Sample.moved _ eq_refl _)).
  repeat constructor.
Defined.

(** One callback from a state in which an armed object has its
    reflection: it returns, or it is a drag update in place mode and
    raises the [OverflowError] of [_distance]; either way the next state
    is such a state again. *)
Lemma callback_outcome (e : PlacerEvent) (s : State) :
  armed_has_reflection (self s) ->
  (fst (placer_callback e s) = Return tt \/
   fst (placer_callback e s) = Raise OverflowError /\ place_drag e) /\
  armed_has_reflection (self (exec (placer_callback e) s)).
Proof.
  intros Inv. unfold exec. destruct e as [h|h g| |]; simpl.
  - rewrite _press_run. split; [left; reflexivity|]. simpl.
    destruct (getActiveSelection h); exact Inv.
  - destruct (_dag (self s)) as [dag|] eqn:Hd.
    2:{ rewrite _drag_no_target by exact Hd.
        split; [left; reflexivity | exact Inv]. }
    rewrite (_drag_target h g s dag Hd).
    destruct (String.eqb (modifier g) "none") eqn:Hm.
    + apply String.eqb_eq in Hm. rewrite Hm.
      pose proof (_getMesh_run h (py_int (p0 (dragPoint g)))
                              (py_int (p1 (dragPoint g))) s dag Hd) as Hmesh.
      match type of Hmesh with _ = (Return ?r, _) => destruct r as [mesh|] end.
      * destruct (closestIntersection h mesh
                    (fst (viewToWorld h (_view (self s))
                            (py_int (p0 (dragPoint g))) (py_int (p1 (dragPoint g)))))
                    (MVec.normalize
                       (snd (viewToWorld h (_view (self s))
                               (py_int (p0 (dragPoint g)))
                               (py_int (p1 (dragPoint g)))))))
          as [hitPoint|] eqn:Hhit.
        -- destruct (_distance_cases hitPoint (translation (worldMatrix h dag)))
             as [[_ Hdist] | [_ Hdist]].
           ++ rewrite (_place_place_run h (anchorPoint g) (dragPoint g) s dag
                                        mesh hitPoint Hmesh Hd Hhit _ Hdist).
              split; [left; reflexivity|]. unfold armed_has_reflection. simpl.
              intros _. split; discriminate.
           ++ rewrite (_place_place_overflow h (anchorPoint g) (dragPoint g) s
                                             dag mesh hitPoint _
                                             Hmesh Hd Hhit Hdist).
              split; [right; split; reflexivity|].
              unfold armed_has_reflection. simpl.
              intros _. split; discriminate.
        -- rewrite (_place_no_hit h (anchorPoint g) (dragPoint g) s mesh
                                  Hmesh Hhit).
           split; [left; reflexivity | exact Inv].
      * rewrite (_place_no_mesh h (anchorPoint g) (dragPoint g) s Hmesh).
        split; [left; reflexivity | exact Inv].
    + destruct (_isSet (self s)) eqn:Hset.
      * destruct (Inv Hset) as [Hp Hv].
        destruct (_reflPoint (self s)) as [reflPoint|] eqn:Ep;
          [|now contradiction Hp].
        destruct (_reflVector (self s)) as [reflVector|] eqn:Ev;
          [|now contradiction Hv].
        rewrite (_place_move_run h (anchorPoint g) (dragPoint g) (modifier g) s
                                 dag reflVector reflPoint Hm Hset Hd Ev Ep).
        split; [left; reflexivity|]. unfold armed_has_reflection. simpl.
        intros _. rewrite Ep, Ev. split; discriminate.
      * rewrite (_place_unarmed h (anchorPoint g) (dragPoint g) (modifier g) s
                                Hm Hset).
        split; [left; reflexivity | exact Inv].
  - split; [left; reflexivity | exact Inv].
  - split; [left; reflexivity|]. unfold armed_has_reflection. simpl.
    intros C. discriminate C.
Qed.

Lemma run_keeps_reflection (es : list PlacerEvent) (s : State) :
  armed_has_reflection (self s) ->
  armed_has_reflection (self (placer_run es s)).
Proof.
  revert s. induction es as [|e es IH]; intros s Inv; [exact Inv|].
  simpl. apply IH. apply callback_outcome. exact Inv.
Qed.

(** With the light at 10^200 on the x axis, the drag update in place
    mode raises the [OverflowError] of [_distance]. *)
Lemma far_light_overflows :
  fst (placer_callback
         (Drag Sample.farLight
               (mkGesture (mkPoint 0 0 0) (mkPoint 640 360 0) "none"))
         (placer_run [Press Sample.farLight] (mkState __init__ [])))
  = Raise OverflowError.
Proof.
  cbn [placer_run placer_callback]. unfold exec. rewrite _press_run.
  cbn [snd]. unfold _asDagPath.
  cbn [getActiveSelection Sample.farLight Sample.host].
  erewrite (_drag_target _ _ _ Sample.light) by reflexivity.
  cbn [anchorPoint dragPoint modifier].
  rewrite (_place_place_overflow
             Sample.farLight (mkPoint 0 0 0) (mkPoint 640 360 0) _
             Sample.light Sample.floor (MVec.mk 0 0 0) OverflowError);
    try reflexivity.
  cbn [worldMatrix Sample.farLight translation].
  rewrite _distance_symmetric. exact _distance_overflow_example.
Qed.

(** X8. In a tool session, whatever callbacks the dragger context
    dispatches to a fresh object, in whatever order and whatever the host
    answers, no callback fails on a missing object, reflection point or
    reflection vector: none raises the [AttributeError] or the
    [TypeError] of a field that is [None]. A callback can fail
    ([far_light_overflows]); the session then goes on from the fields as
    the failed callback left them, and throughout an armed object has a
    reflection point and a reflection vector stored. *)
Theorem session_never_misses_a_field
        (es : list PlacerEvent) (e : PlacerEvent) :
  let s := placer_run es (mkState __init__ []) in
  fst (placer_callback e s) <> Raise AttributeError /\
  fst (placer_callback e s) <> Raise TypeError /\
  armed_has_reflection (self s).
Proof.
  intros s.
  assert (Inv : armed_has_reflection (self s)).
  { apply run_keeps_reflection. intros C. discriminate C. }
  destruct (callback_outcome e s Inv) as [[H | [H _]] _]; rewrite H;
    (split; [discriminate | split; [discriminate | exact Inv]]).
Qed.

(** X9. Move mode does not accumulate within a gesture: every drag
    update computes from the base distance of the gesture, so after two
    updates in move mode the object's fields are those the second update
    alone would have left. *)
Theorem move_updates_do_not_accumulate
        (h1 h2 : Host) (g1 g2 : Gesture) (s : State) :
  modifier g1 = "shift"%string \/ modifier g1 = "ctrl"%string ->
  modifier g2 = "shift"%string \/ modifier g2 = "ctrl"%string ->
  _isSet (self s) = true ->
  self (exec (_drag h2 g2) (exec (_drag h1 g1) s))
  = self (exec (_drag h2 g2) s).
Proof.
  intros Hm1 Hm2 Hset.
  apply modifier_not_none in Hm1. apply modifier_not_none in Hm2.
  unfold exec. destruct (_dag (self s)) as [dag|] eqn:Hd.
  - rewrite (_drag_target h1 g1 s dag Hd).
    pose proof (_place_move_self h1 (anchorPoint g1) (dragPoint g1) (modifier g1)
                                 s Hm1 Hset) as H1.
    unfold exec in H1.
    set (s1 := snd (_place h1 (anchorPoint g1) (dragPoint g1) (modifier g1) s))
      in *.
    assert (Hd1 : _dag (self s1) = Some dag) by (rewrite H1; exact Hd).
    assert (Hset1 : _isSet (self s1) = true) by (rewrite H1; exact Hset).
    rewrite (_drag_target h2 g2 s1 dag Hd1), (_drag_target h2 g2 s dag Hd).
    pose proof (_place_move_self h2 (anchorPoint g2) (dragPoint g2) (modifier g2)
                                 s1 Hm2 Hset1) as H2.
    pose proof (_place_move_self h2 (anchorPoint g2) (dragPoint g2) (modifier g2)
                                 s Hm2 Hset) as H2'.
    unfold exec in H2, H2'. rewrite H2, H2', H1. reflexivity.
  - rewrite (_drag_no_target h1 g1 s Hd). reflexivity.
Qed.

Lemma move_updates_do_not_accumulate_witness :
  self (exec (_drag Sample.host (mkGesture (mkPoint 0 0 0) (mkPoint 150 0 0) "ctrl"))
             (exec (_drag Sample.host
                          (mkGesture (mkPoint 0 0 0) (mkPoint 100 0 0) "shift"))
                   Sample.armed))
  = self (exec (_drag Sample.host
                      (mkGesture (mkPoint 0 0 0) (mkPoint 150 0 0) "ctrl"))
               Sample.armed).
Proof.
  apply (move_updates_do_not_accumulate
           Sample.host Sample.host
           (mkGesture (mkPoint 0 0 0) (mkPoint 100 0 0) "shift")
           (mkGesture (mkPoint 0 0 0) (mkPoint 150 0 0) "ctrl")
           Sample.armed (or_introl eq_refl) (or_intror eq_refl) eq_refl).
Defined.



Lemma not_place_drag_keeps (P : State -> Prop) :
  (forall h s, P s -> P (exec (_press h) s)) ->
  (forall s, P s -> P (exec _release s)) ->
  (forall s, P s -> P (exec _finalize s)) ->
  (forall h g s,
      String.eqb (modifier g) "none" = false -> P s -> P (exec (_drag h g) s)) ->
  forall es s, Forall not_place_drag es -> P s -> P (placer_run es s).
Proof.
  intros Hpress Hrel Hfin Hdrag es.
  induction es as [|e es IH]; intros s Hes Hs; [exact Hs|].
  inversion Hes as [|e' es' He Hes']; subst.
  simpl. apply IH; [exact Hes'|].
  destruct e as [h|h g| |]; simpl; auto.
Qed.

(** X11. A move distance of zero stays: once a gesture starts (press with
    an object selected) from the move distance 0, the move distance is 0
    after any further callbacks, as long as none of them is a drag update
    in place mode. *)
Theorem zero_move_distance_stays
        (h : Host) (s : State) (es : list PlacerEvent) :
  _moveDist (self s) = 0 ->
  getActiveSelection h <> None ->
  Forall not_place_drag es ->
  _moveDist (self (placer_run es (exec (_press h) s))) = 0.
Proof.
  intros Hz Hsel Hes.
  refine (proj1 (not_place_drag_keeps
                   (fun s => _moveDist (self s) = 0 /\ _dist (self s) = 0)
                   _ _ _ _ es _ Hes _)).
  - intros h' s' [Hm Hd]. unfold exec. rewrite _press_run. simpl.
    destruct (getActiveSelection h'); simpl; auto.
  - intros s' H. exact H.
  - intros s' [Hm Hd]. split; [reflexivity | exact Hd].
  - intros h' g s' Hmod [Hm Hd]. unfold exec.
    destruct (_dag (self s')) as [dag|] eqn:Edag.
    + rewrite (_drag_target h' g s' dag Edag).
      destruct (_isSet (self s')) eqn:Hset.
      * pose proof (_place_move_self h' (anchorPoint g) (dragPoint g)
                                     (modifier g) s' Hmod Hset) as H.
        unfold exec in H. rewrite H. simpl. rewrite Hd. split; [ring|reflexivity].
      * rewrite _place_unarmed by assumption. auto.
    + rewrite _drag_no_target by exact Edag. auto.
  - unfold exec. rewrite _press_run. simpl.
    destruct (getActiveSelection h); [|now contradiction Hsel].
    simpl. auto.
Qed.

Lemma zero_move_distance_stays_witness :
  _moveDist
    (self
       (placer_run
          [Drag Sample.host (mkGesture (mkPoint 0 0 0) (mkPoint 100 0 0) "shift")]
          (exec (_press Sample.host)
                (exec _finalize Sample.armed))))
  = 0.
Proof.
  apply (zero_move_distance_stays Sample.host (exec _finalize Sample.armed)).
  - reflexivity.
  - discriminate.
  - repeat constructor.
Defined.

(** X12. Leaving the tool disarms it: after [_finalize] the object is not
    armed and its move distance is 0, and they stay so, with nothing
    placed, through any callbacks none of which is a drag update in place
    mode. *)
Theorem finalize_disarms (s : State) (es : list PlacerEvent) :
  Forall not_place_drag es ->
  let s' := placer_run es (exec _finalize s) in
  _isSet (self s') = false /\
  _moveDist (self s') = 0 /\
  effects s' = effects s.
Proof.
  intros Hes.
  refine (not_place_drag_keeps
            (fun s' => _isSet (self s') = false /\ _moveDist (self s') = 0 /\
                       effects s' = effects s)
            _ _ _ _ es _ Hes _).
  - intros h' s' (Hset & Hm & He). unfold exec. rewrite _press_run. simpl.
    destruct (getActiveSelection h'); simpl; auto.
  - intros s' H. exact H.
  - intros s' (Hset & Hm & He). repeat split. exact He.
  - intros h' g s' Hmod (Hset & Hm & He). unfold exec.
    destruct (_dag (self s')) as [dag|] eqn:Edag.
    + rewrite (_drag_target h' g s' dag Edag).
      rewrite _place_unarmed by assumption. auto.
    + rewrite _drag_no_target by exact Edag. auto.
  - repeat split.
Qed.

Lemma finalize_disarms_witness :
  _isSet
    (self (placer_run
             [Press Sample.host;
              Drag Sample.host (mkGesture (mkPoint 0 0 0) (mkPoint 100 0 0) "shift");
              Release]
             (exec _finalize Sample.armed))) = false.
Proof.
  refine (proj1 (finalize_disarms Sample.armed _ _)).
  repeat constructor.
Defined.

End PlacerSessions.

Section BasisAndMatrix.
Import PlaceReflection.

(** X13. The row of the configured axis is the vector itself or its
    opposite, for every vector: for the x and the y axis it is the vector
    when invert is set and the opposite otherwise; for the z axis (any
    other axis value) it is the other way round. *)
Theorem aimed_row_by_setting (vector : MVector) (axis : Z) (invert : bool) :
  let m := _quatFromVector_rows axis invert vector in
  let opposite := (-1) *v vector in
  (axis = 0%Z -> xRow m = if invert then vector else opposite) /\
  (axis = 1%Z -> yRow m = if invert then vector else opposite) /\
  (axis <> 0%Z -> axis <> 1%Z ->
   zRow m = if invert then opposite else vector).
Proof.
  intros m opposite. subst m opposite. unfold _quatFromVector_rows.
  repeat split.
  - intros ->. destruct invert; apply MVec_eq_intro; simpl; ring.
  - intros ->. destruct invert; apply MVec_eq_intro; simpl; ring.
  - intros N0 N1.
    destruct (Z.eqb_spec axis 0) as [E|_]; [contradiction|].
    destruct (Z.eqb_spec axis 1) as [E|_]; [contradiction|].
    destruct invert; apply MVec_eq_intro; simpl; ring.
Qed.

Lemma aimed_row_by_setting_witness :
  zRow (_quatFromVector_rows 2 true (MVec.mk (3 / 5) (4 / 5) 0))
  = (-1) *v MVec.mk (3 / 5) (4 / 5) 0.
Proof.
  apply (proj2 (proj2 (aimed_row_by_setting (MVec.mk (3 / 5) (4 / 5) 0) 2 true)));
    discriminate.
Defined.

(** X14. For every unit vector that is not parallel to the world up
    vector, every axis and every invert setting, the three rows are
    orthonormal, and their determinant is 1 for the x axis inverted and
    the y axis not inverted, and -1 in every other setting. *)
Theorem frame_orthonormal_with_determinant
        (V : MVector) (axis : Z) (invert : bool) :
  MVec.dot V V = 1 ->
  MVec.cross V worldUp <> MVec.mk 0 0 0 ->
  orthonormal (_quatFromVector_rows axis invert V) /\
  det3 (_quatFromVector_rows axis invert V)
  = if ((axis =? 0)%Z && invert) || ((axis =? 1)%Z && negb invert)
    then 1 else -1.
Proof.
  intros Hu Hn.
  pose proof (rows_orthonormal V Hu Hn axis invert) as Ho.
  pose proof (rows_handedness V Hu Hn axis invert) as Hh.
  split; [exact Ho|].
  destruct Ho as (_ & _ & Hz & _).
  unfold det3.
  destruct (((axis =? 0)%Z && invert) || ((axis =? 1)%Z && negb invert)).
  - unfold right_handed in Hh. rewrite Hh. exact Hz.
  - unfold left_handed in Hh. rewrite Hh.
    generalize dependent (zRow (_quatFromVector_rows axis invert V)).
    intros z Hz _. unfold MVec.dot, MVec.scale in *. simpl. lra.
Qed.

Lemma frame_orthonormal_with_determinant_witness :
  orthonormal (_quatFromVector_rows 1 false (MVec.mk 0 0 1)) /\
  det3 (_quatFromVector_rows 1 false (MVec.mk 0 0 1)) = 1.
Proof.
  apply (frame_orthonormal_with_determinant (MVec.mk 0 0 1) 1 false).
  - unfold MVec.dot. cbn [MVec.x MVec.y MVec.z]. ring.
  - unfold MVec.cross, worldUp. cbn [MVec.x MVec.y MVec.z].
    intros C. injection C as C _ _. lra.
Defined.

(** X15. [_valueList] lists the sixteen elements of the matrix row by
    row: element (i, j) is at index 4 i + j. *)
Theorem _valueList_row_major (getElement : nat -> nat -> R) :
  List.length (_valueList getElement) = 16%nat /\
  forall i j : nat,
    (i < 4)%nat -> (j < 4)%nat ->
    nth (4 * i + j) (_valueList getElement) 0 = getElement i j.
Proof.
  split; [reflexivity|].
  intros i j Hi Hj.
  do 4 (destruct i as [|i]; [do 4 (destruct j as [|j]; [reflexivity|]); lia|]).
  lia.
Qed.

Lemma _valueList_row_major_witness :
  nth (4 * 2 + 3) (_valueList (fun i j => INR i * 10 + INR j)) 0
  = INR 2 * 10 + INR 3.
Proof.
  apply (proj2 (_valueList_row_major (fun i j => INR i * 10 + INR j)) 2%nat 3%nat);
    lia.
Defined.

End BasisAndMatrix.

(** * Properties of the preferences *)

Section Preferences.
Import PlaceReflection.

(** X16. Creating the preferences never overwrites one: without reset,
    [_setOptionVars] leaves every existing variable at its value, after
    it all six variables exist, and running it again changes nothing; so
    constructing the object leaves a complete store as it is. *)
Theorem _setOptionVars_keeps_existing (ov : OptionVars) :
  let ov' := _setOptionVars false ov in
  (forall z, AFFECT_TRANSLATION ov = Some z -> AFFECT_TRANSLATION ov' = Some z) /\
  (forall z, AFFECT_ROTATION ov = Some z -> AFFECT_ROTATION ov' = Some z) /\
  (forall z, INVERT_AXIS ov = Some z -> INVERT_AXIS ov' = Some z) /\
  (forall z, ORIENT_AXIS ov = Some z -> ORIENT_AXIS ov' = Some z) /\
  (forall r, SPEED_SLOW ov = Some r -> SPEED_SLOW ov' = Some r) /\
  (forall r, SPEED_FAST ov = Some r -> SPEED_FAST ov' = Some r) /\
  (AFFECT_TRANSLATION ov' <> None /\ AFFECT_ROTATION ov' <> None /\
   INVERT_AXIS ov' <> None /\ ORIENT_AXIS ov' <> None /\
   SPEED_SLOW ov' <> None /\ SPEED_FAST ov' <> None) /\
  _setOptionVars false ov' = ov' /\
  snd (new ov') = ov'.
Proof.
  destruct ov as [t r i a ss sf]. unfold new, _setOptionVars. simpl.
  repeat split; try (intros ? ->; reflexivity);
    destruct t, r, i, a, ss, sf; simpl; try discriminate; reflexivity.
Qed.

Lemma _setOptionVars_keeps_existing_witness :
  ORIENT_AXIS (_setOptionVars false
                 (mkOptionVars None None None (Some 0%Z) None (Some 5)))
  = Some 0%Z.
Proof.
  apply (proj1 (proj2 (proj2 (proj2 (_setOptionVars_keeps_existing
           (mkOptionVars None None None (Some 0%Z) None (Some 5))))))).
  reflexivity.
Defined.

(** X17. After a reset the stored preferences are the defaults, whatever
    was stored, and they are the preferences a fresh object starts from:
    loading them into a fresh object changes no field. The same holds on
    first use, when no variable exists yet. *)
Theorem reset_gives_the_defaults (ov : OptionVars) :
  _setOptionVars true ov
  = mkOptionVars (Some 1%Z) (Some 1%Z) (Some 1%Z) (Some 2%Z)
                 (Some (1 / 1000)) (Some (1 / 100)) /\
  prefs_in_sync (__init__, _setOptionVars true ov) /\
  prefs_in_sync (new (mkOptionVars None None None None None None)).
Proof.
  assert (H : _setOptionVars true ov
              = mkOptionVars (Some 1%Z) (Some 1%Z) (Some 1%Z) (Some 2%Z)
                             (Some (1 / 1000)) (Some (1 / 100))).
  { destruct ov as [t r i a ss sf]. unfold _setOptionVars. simpl.
    destruct t, r, i, a, ss, sf; reflexivity. }
  split; [exact H|]. split.
  - unfold prefs_in_sync. rewrite H. reflexivity.
  - reflexivity.
Qed.

Lemma in_sync_fields (o : Self) (ov : OptionVars) :
  prefs_in_sync (o, ov) <->
  (_axis o = query_int (ORIENT_AXIS ov) /\
   _invert o = truth (query_int (INVERT_AXIS ov)) /\
   _translate o = truth (query_int (AFFECT_TRANSLATION ov)) /\
   _rotate o = truth (query_int (AFFECT_ROTATION ov)) /\
   _speedSlow o = query_float (SPEED_SLOW ov) /\
   _speedFast o = query_float (SPEED_FAST ov)).
Proof.
  unfold prefs_in_sync. destruct o. simpl. split.
  - intros H. injection H as -> -> -> -> -> ->. repeat split.
  - intros (-> & -> & -> & -> & -> & ->). reflexivity.
Qed.

Lemma truth_int_of_bool (b : bool) : truth (int_of_bool b) = b.
Proof. destruct b; reflexivity. Qed.

(** X18. The setters keep the object and the stored preferences in
    agreement: if the fields agree with the store, they still do after
    [setTranslate], [setRotate], [setAxis], [setInvert] and [setSpeed],
    and each getter answers the value that was set. [_getOptionVars]
    brings any object into agreement with the store. *)
Theorem setters_keep_in_sync (p : Prefs) :
  prefs_in_sync (_getOptionVars p) /\
  (prefs_in_sync p ->
   (forall b, prefs_in_sync (setTranslate b p) /\
              translate (fst (setTranslate b p)) = b) /\
   (forall b, prefs_in_sync (setRotate b p) /\
              rotate (fst (setRotate b p)) = b) /\
   (forall z, prefs_in_sync (setAxis z p) /\ axis (fst (setAxis z p)) = z) /\
   (forall b, prefs_in_sync (setInvert b p) /\
              invert (fst (setInvert b p)) = b) /\
   (forall t r, prefs_in_sync (setSpeed t r p) /\
                speed t (fst (setSpeed t r p)) = r)).
Proof.
  destruct p as [o ov]. split.
  - unfold _getOptionVars. apply in_sync_fields. simpl. repeat split.
  - intros H. apply in_sync_fields in H.
    destruct H as (Ha & Hi & Ht & Hr & Hs & Hf).
    repeat split; try reflexivity;
      try (apply in_sync_fields; simpl; rewrite ?truth_int_of_bool;
           repeat split; assumption).
    + unfold setSpeed. destruct (t =? 0)%Z;
        apply in_sync_fields; simpl; repeat split; assumption.
    + unfold setSpeed, speed. destruct (t =? 0)%Z; reflexivity.
Qed.

Lemma setters_keep_in_sync_witness :
  prefs_in_sync (setAxis 0 (new (mkOptionVars None None None None None None))) /\
  axis (fst (setAxis 0 (new (mkOptionVars None None None None None None)))) = 0%Z.
Proof.
  refine (proj1 (proj2 (proj2 (proj2 (setters_keep_in_sync
            (new (mkOptionVars None None None None None None))) _))) 0%Z).
  reflexivity.
Defined.

(** X19. [setSpeed] and [speed] take type 0 for the slow speed and every
    other type for the fast speed, and each leaves the other speed alone;
    the speed set for a type other than 0 is the one a shift drag of an
    armed object moves with, the speed set for type 0 the one a ctrl drag
    moves with. *)
Theorem setSpeed_selects_by_type
        (speedType : Z) (value : R) (o : Self) (ov : OptionVars) :
  let o' := fst (setSpeed speedType value (o, ov)) in
  (speedType = 0%Z ->
   speed 0 o' = value /\ speed 1 o' = speed 1 o /\
   SPEED_FAST (snd (setSpeed speedType value (o, ov))) = SPEED_FAST ov) /\
  (speedType <> 0%Z ->
   speed 1 o' = value /\ speed 0 o' = speed 0 o /\
   SPEED_SLOW (snd (setSpeed speedType value (o, ov))) = SPEED_SLOW ov) /\
  (_isSet o = true ->
   forall (h : Host) (startPoint point : ScreenPoint) (effs : list Effect),
     (speedType <> 0%Z ->
      moveDist_after h startPoint point "shift" (mkState o' effs)
      = _dist o * (1 + IZR (py_int (p0 point) - py_int (p0 startPoint)) * value)) /\
     (speedType = 0%Z ->
      moveDist_after h startPoint point "ctrl" (mkState o' effs)
      = _dist o * (1 + IZR (py_int (p0 point) - py_int (p0 startPoint)) * value))).
Proof.
  intros o'. subst o'. unfold setSpeed, speed. repeat split.
  - subst. reflexivity.
  - subst. reflexivity.
  - subst. reflexivity.
  - destruct (Z.eqb_spec speedType 0); [contradiction | reflexivity].
  - destruct (Z.eqb_spec speedType 0); [contradiction | reflexivity].
  - destruct (Z.eqb_spec speedType 0); [contradiction | reflexivity].
  - intros Hne. unfold moveDist_after.
    destruct (Z.eqb_spec speedType 0); [contradiction|].
    rewrite _place_move_self by (try reflexivity; exact H). reflexivity.
  - intros ->. unfold moveDist_after.
    rewrite _place_move_self by (try reflexivity; exact H). reflexivity.
Qed.

Lemma setSpeed_selects_by_type_witness :
  speed 1 (fst (setSpeed 7 (1 / 10) (self Sample.armed,
                                     mkOptionVars None None None None None None)))
  = 1 / 10.
Proof.
  refine (proj1 (proj1 (proj2 (setSpeed_selects_by_type
            7 (1 / 10) (self Sample.armed)
            (mkOptionVars None None None None None None))) _)).
  discriminate.
Defined.

End Preferences.

(** * Further properties of the quick-zoom tool *)

Section Framing.
Import QuickZoom.

Arguments _isHorizontal : simpl never.
Arguments _getZoom : simpl never.
Arguments _zoomView : simpl never.
Arguments _pan : simpl never.
Arguments writeAttr : simpl never.

Lemma _isHorizontal_run (s : State) (cam : string) :
  _mfn (self s) = Some cam ->
  _height (self s) <> 0 ->
  _isHorizontal s
  = (Return (horizontal_fit (filmFit (cameras (world s) cam))
                            (_width (self s)) (_height (self s))
                            (_ratio (self s))), s).
Proof.
  intros Hc Hh. unfold _isHorizontal, horizontal_fit. run_monad.
  destruct (Req_dec_T (_height (self s)) 0); [contradiction|]. simpl.
  rewrite Hc. simpl. rewrite Hc. simpl.
  destruct (filmFit (cameras (world s) cam)); simpl; try reflexivity;
    destruct (Rlt_dec _ _); reflexivity.
Qed.

Lemma _isHorizontal_needs (s : State) (b : bool) :
  fst (_isHorizontal s) = Return b ->
  _height (self s) <> 0 /\ exists cam, _mfn (self s) = Some cam.
Proof.
  unfold _isHorizontal. run_monad.
  destruct (Req_dec_T (_height (self s)) 0); simpl; [discriminate|].
  destruct (_mfn (self s)) as [cam|] eqn:Hc; simpl; [|discriminate].
  intros _. split; [assumption | now exists cam].
Qed.

Lemma filmFit_writeAttr (cam : string) (a : Attr) (s : State) (n : string) :
  filmFit (cameras (world (writeAttr cam a s)) n)
  = filmFit (cameras (world s) n).
Proof.
  unfold writeAttr. simpl. destruct (String.eqb n cam); [|reflexivity].
  destruct a; reflexivity.
Qed.

Lemma _getZoom_run (s : State) (cam : string) :
  _mfn (self s) = Some cam ->
  _height (self s) <> 0 ->
  let horizontal :=
    horizontal_fit (filmFit (cameras (world s) cam))
                   (_width (self s)) (_height (self s)) (_ratio (self s)) in
  (if horizontal then _width (self s) else _height (self s)) <> 0 ->
  _getZoom s
  = (Return
       (if horizontal
        then IZR (Z.abs (_endX (self s) - _startX (self s))) / _width (self s)
        else IZR (Z.abs (_endY (self s) - _startY (self s))) / _height (self s)),
     s).
Proof.
  intros Hc Hh horizontal Hdim.
  pose proof (_isHorizontal_run s cam Hc Hh) as Hhz. fold horizontal in Hhz.
  unfold _getZoom.
  unfold bind at 1. unfold field at 1, gets at 1.
  unfold bind at 1. unfold field at 1, gets at 1.
  unfold bind at 1. rewrite Hhz.
  run_monad. rewrite Hhz.
  assert (Habs : forall a b : Z,
             (if (b >? a)%Z then (b - a)%Z else (a - b)%Z) = Z.abs (b - a))
    by (intros a b; destruct (Z.gtb_spec b a); lia).
  assert (Habs' : forall a b : Z, Z.abs (a - b) = Z.abs (b - a))
    by (intros; lia).
  destruct horizontal; simpl.
  - destruct (Req_dec_T (_width (self s)) 0); [contradiction|].
    simpl. rewrite Habs. reflexivity.
  - destruct (Req_dec_T (_height (self s)) 0); [contradiction|].
    simpl. rewrite Habs, Habs'. reflexivity.
Qed.

(** What a release without modifier does to a view of non-zero size and
    ratio: the four attributes of [framing], in this order. *)
Lemma _zoomView_run (s : State) (cam : string) :
  _mfn (self s) = Some cam ->
  _width (self s) <> 0 ->
  _height (self s) <> 0 ->
  _ratio (self s) <> 0 ->
  _zoomView s
  = (Return tt, write_all cam (framing (self s) (cameras (world s) cam)) s).
Proof.
  intros Hc Hw Hh Hr.
  pose proof (_isHorizontal_run s cam Hc Hh) as Hhz.
  assert (Hwr : _width (self s) / _ratio (self s) <> 0).
  { unfold Rdiv. apply Rmult_integral_contrapositive_currified;
      [exact Hw | apply Rinv_neq_0_compat, Hr]. }
  assert (Hhr : _height (self s) * _ratio (self s) <> 0)
    by (apply Rmult_integral_contrapositive_currified; assumption).
  unfold _zoomView, framing, write_all, region_pan, floored. run_monad.
  repeat (first [rewrite Hc | rewrite Hhz | progress simpl]).
  set (hz := horizontal_fit (filmFit (cameras (world s) cam))
                            (_width (self s)) (_height (self s))
                            (_ratio (self s))) in *.
  destruct hz eqn:Ehz.
  - destruct (Req_dec_T (_ratio (self s)) 0) as [C|_]; [contradiction|].
    repeat (first [rewrite Hc | progress simpl]).
    destruct (Req_dec_T (_width (self s)) 0) as [C|_]; [contradiction|].
    repeat (first [rewrite Hc | progress simpl]).
    destruct (Req_dec_T (_width (self s) / _ratio (self s)) 0) as [C|_];
      [contradiction|].
    repeat (first [rewrite Hc | progress simpl]).
    match goal with
    | |- context [_getZoom ?s3] =>
        pose proof (_getZoom_run s3 cam Hc Hh) as Hz;
        cbv zeta in Hz; rewrite !filmFit_writeAttr in Hz;
        change (self s3) with (self s) in Hz
    end.
    fold hz in Hz. rewrite Ehz in Hz. rewrite (Hz Hw). simpl.
    rewrite !minus_IZR.
    repeat (f_equal; try (field; assumption)).
  - repeat (first [rewrite Hc | progress simpl]).
    destruct (Req_dec_T (_height (self s) * _ratio (self s)) 0) as [C|_];
      [contradiction|].
    repeat (first [rewrite Hc | progress simpl]).
    destruct (Req_dec_T (_height (self s)) 0) as [C|_]; [contradiction|].
    repeat (first [rewrite Hc | progress simpl]).
    match goal with
    | |- context [_getZoom ?s3] =>
        pose proof (_getZoom_run s3 cam Hc Hh) as Hz;
        cbv zeta in Hz; rewrite !filmFit_writeAttr in Hz;
        change (self s3) with (self s) in Hz
    end.
    fold hz in Hz. rewrite Ehz in Hz. rewrite (Hz Hh). simpl.
    rewrite !minus_IZR.
    repeat (f_equal; try (field; assumption)).
Qed.

Lemma write_all_self (cam : string) (attrs : list Attr) (s : State) :
  self (write_all cam attrs s) = self s.
Proof.
  unfold write_all. revert s.
  induction attrs as [|a attrs IH]; intros s; [reflexivity|].
  simpl. rewrite IH. reflexivity.
Qed.

Lemma write_all_effects (cam : string) (attrs : list Attr) (s : State) :
  effects (world (write_all cam attrs s))
  = (effects (world s) ++ map (SetAttr cam) attrs)%list.
Proof.
  unfold write_all. revert s.
  induction attrs as [|a attrs IH]; intros s; simpl.
  - now rewrite app_nil_r.
  - rewrite IH, effects_writeAttr, <- app_assoc. reflexivity.
Qed.

Lemma write_all_camera (cam : string) (attrs : list Attr) (s : State) :
  cameras (world (write_all cam attrs s)) cam
  = fold_left (fun c a => setCameraAttr a c) attrs (cameras (world s) cam).
Proof.
  unfold write_all. revert s.
  induction attrs as [|a attrs IH]; intros s; simpl; [reflexivity|].
  rewrite IH. unfold writeAttr. simpl. rewrite String.eqb_refl. reflexivity.
Qed.

Lemma write_all_world (cam : string) (attrs : list Attr) (o o' : Self)
      (w : World) :
  world (write_all cam attrs (mkState o w))
  = world (write_all cam attrs (mkState o' w)).
Proof.
  unfold write_all. revert w.
  induction attrs as [|a attrs IH]; intros w; simpl; [reflexivity|].
  unfold writeAttr at 2 4. simpl. apply IH.
Qed.

Lemma _press_perspective (g : Gesture) (s : State) :
  isOrtho (cameras (world s) (activeCamera (world s))) = false ->
  String.eqb (modifier g) "ctrl" = false ->
  let cam := activeCamera (world s) in
  let c := cameras (world s) cam in
  _press g s
  = (Return tt,
     mkState (set_view_info (IZR (portWidth (world s)))
                            (IZR (portHeight (world s)))
                            (aspectRatio c) (horizontalPan c) (verticalPan c)
                            (set_mfn (Some cam) (self s)))
             (world s)).
Proof.
  intros Ho Hm cam c. subst cam c. unfold _press. run_monad.
  rewrite Ho, Hm. reflexivity.
Qed.

Lemma _drag_stores_points (g : Gesture) (s : State) :
  String.eqb (modifier g) "shift" = false ->
  _drag g s
  = (Return tt,
     mkState (set_points (py_int (p0 (anchorPoint g))) (py_int (p1 (anchorPoint g)))
                         (py_int (p0 (dragPoint g))) (py_int (p1 (dragPoint g)))
                         (self s))
             (world s)).
Proof. intros Hm. unfold _drag. rewrite Hm. reflexivity. Qed.

(** X20. A plain gesture frames the dragged region. On a perspective
    camera, in a view of non-zero size and a camera of non-zero aspect
    ratio, press, drag and release without modifier write, in this order,
    [panZoomEnabled] = true, the horizontal and the vertical pan and the
    zoom, then show the message. Each pan is the offset of the region's
    centre from the centre of the view, as a fraction of the camera image
    in the view, times overscan and aperture; the zoom is the extent of
    the region (its width for a horizontal fit, else its height) as a
    fraction of the view, times overscan, floored at 1/100. *)
Theorem plain_gesture_frames_region (g : Gesture) (s : State) :
  let cam := activeCamera (world s) in
  let c := cameras (world s) cam in
  let o := set_points (py_int (p0 (anchorPoint g))) (py_int (p1 (anchorPoint g)))
                      (py_int (p0 (dragPoint g))) (py_int (p1 (dragPoint g)))
             (set_view_info (IZR (portWidth (world s)))
                            (IZR (portHeight (world s)))
                            (aspectRatio c) (horizontalPan c) (verticalPan c)
                            (set_mfn (Some cam) (self s))) in
  let s' := exec (_release g) (exec (_drag g) (exec (_press g) s)) in
  modifier g = "none"%string ->
  isOrtho c = false ->
  portWidth (world s) <> 0%Z ->
  portHeight (world s) <> 0%Z ->
  aspectRatio c <> 0 ->
  self s' = o /\
  effects (world s')
  = (effects (world s) ++ map (SetAttr cam) (framing o c)
     ++ [InViewMessage RESET_MESSAGE])%list /\
  cameras (world s') cam
  = fold_left (fun c a => setCameraAttr a c) (framing o c) c.
Proof.
  intros cam c o s' Hm Ho Hw Hh Hr.
  assert (H1 : exec (_press g) s
               = mkState (set_view_info (IZR (portWidth (world s)))
                                        (IZR (portHeight (world s)))
                                        (aspectRatio c) (horizontalPan c)
                                        (verticalPan c)
                                        (set_mfn (Some cam) (self s)))
                         (world s)).
  { unfold exec. rewrite (_press_perspective g s Ho) by (rewrite Hm; reflexivity).
    reflexivity. }
  assert (H2 : exec (_drag g) (exec (_press g) s) = mkState o (world s)).
  { rewrite H1. unfold exec.
    rewrite _drag_stores_points by (rewrite Hm; reflexivity). reflexivity. }
  assert (H3 : _zoomView (mkState o (world s))
               = (Return tt,
                  write_all cam (framing o c) (mkState o (world s)))).
  { apply (_zoomView_run (mkState o (world s)) cam).
    - reflexivity.
    - apply not_0_IZR. exact Hw.
    - apply not_0_IZR. exact Hh.
    - exact Hr. }
  subst s'. rewrite H2. unfold exec, _release. rewrite Hm.
  change (String.eqb "none" "none") with true. cbv beta iota.
  unfold bind. rewrite H3.
  unfold emit, modify. cbn [snd self world effects cameras].
  rewrite write_all_self, write_all_effects, write_all_camera.
  rewrite <- app_assoc. repeat split.
Qed.

Lemma plain_gesture_frames_region_witness :
  self (exec (_release Sample.plainDrag)
             (exec (_drag Sample.plainDrag)
                   (exec (_press Sample.plainDrag) Sample.framed)))
  = set_points (py_int 960) (py_int 540) (py_int 1440) (py_int 810)
      (set_view_info 1920 1080 (16 / 9) 0 0
         (set_mfn (Some "perspShape"%string) (self Sample.framed))).
Proof.
  refine (proj1 (plain_gesture_frames_region Sample.plainDrag Sample.framed
                                             eq_refl eq_refl _ _ _)).
  - discriminate.
  - discriminate.
  - cbn [aspectRatio cameras world Sample.framed Sample.perspWorld
         Sample.perspCamera]. lra.
Defined.

(** X21. The framing does not depend on the direction of the drag: a
    region dragged from its end point back to its start point sets the
    same pans and the same zoom. *)
Theorem framing_ignores_drag_direction (s : State) (cam : string) :
  _mfn (self s) = Some cam ->
  _width (self s) <> 0 ->
  _height (self s) <> 0 ->
  _ratio (self s) <> 0 ->
  let backwards :=
    mkState (set_points (_endX (self s)) (_endY (self s))
                        (_startX (self s)) (_startY (self s)) (self s))
            (world s) in
  world (exec _zoomView backwards) = world (exec _zoomView s).
Proof.
  intros Hc Hw Hh Hr backwards. unfold exec.
  rewrite (_zoomView_run s cam Hc Hw Hh Hr).
  rewrite (_zoomView_run backwards cam Hc Hw Hh Hr).
  cbn [snd]. destruct s as [o w]. subst backwards. cbn [self world].
  assert (Hf : framing (set_points (_endX o) (_endY o) (_startX o) (_startY o) o)
                       (cameras w cam)
               = framing o (cameras w cam)).
  { unfold framing, region_pan.
    cbn [_width _height _ratio _startX _startY _endX _endY set_points].
    replace (Z.abs (_startX o - _endX o)) with (Z.abs (_endX o - _startX o))
      by lia.
    replace (Z.abs (_startY o - _endY o)) with (Z.abs (_endY o - _startY o))
      by lia.
    rewrite (Rplus_comm (IZR (_endX o)) (IZR (_startX o))).
    rewrite (Rplus_comm (IZR (_endY o)) (IZR (_startY o))).
    reflexivity. }
  rewrite Hf. apply write_all_world.
Qed.

Lemma framing_ignores_drag_direction_witness :
  world (exec _zoomView
              (mkState (set_points 1440 810 960 540 (self Sample.framed))
                       (world Sample.framed)))
  = world (exec _zoomView Sample.framed).
Proof.
  apply (framing_ignores_drag_direction Sample.framed "perspShape");
    try reflexivity;
    cbn [self _width _height _ratio Sample.framed]; lra.
Defined.

Lemma _isHorizontal_writeAttr (cam : string) (a : Attr) (s : State) (b : bool) :
  _isHorizontal s = (Return b, s) ->
  _isHorizontal (writeAttr cam a s) = (Return b, writeAttr cam a s).
Proof.
  intros H.
  destruct (_isHorizontal_needs s b) as (Hh & cam0 & Hc); [now rewrite H|].
  rewrite (_isHorizontal_run s cam0 Hc Hh) in H.
  rewrite (_isHorizontal_run (writeAttr cam a s) cam0 Hc Hh).
  rewrite filmFit_writeAttr. cbn [self writeAttr].
  change (self (writeAttr cam a s)) with (self s).
  injection H as H. rewrite H. reflexivity.
Qed.

Lemma _getZoom_after_check (s : State) (b : bool) :
  _isHorizontal s = (Return b, s) ->
  (if b then _width (self s) else _height (self s)) <> 0 ->
  exists z, _getZoom s = (Return z, s).
Proof.
  intros H Hdim.
  destruct (_isHorizontal_needs s b) as (Hh & cam & Hc); [now rewrite H|].
  rewrite (_isHorizontal_run s cam Hc Hh) in H. injection H as H.
  eexists. apply (_getZoom_run s cam Hc Hh). cbv zeta. rewrite H. exact Hdim.
Qed.

(** X22. A release writes all four attributes or none: whatever the
    state, [_zoomView] either raises before its first [setAttr], leaving
    the state as it was, or returns after exactly the four writes
    [panZoomEnabled], [horizontalPan], [verticalPan], [zoom] on the
    camera of the press. *)
Theorem _zoomView_all_or_nothing (s : State) :
  (exists e : exn, _zoomView s = (Raise e, s)) \/
  (exists (cam : string) (panX panY z : R),
      _mfn (self s) = Some cam /\
      _zoomView s
      = (Return tt,
         write_all cam [PanZoomEnabled true; HorizontalPan panX;
                        VerticalPan panY; Zoom z] s)).
Proof.
  unfold _zoomView, write_all. run_monad.
  destruct (_mfn (self s)) as [cam|] eqn:Hc; simpl;
    [|left; eexists; reflexivity].
  rewrite ?Hc; simpl.
  pose proof (_isHorizontal_state s) as Hst.
  destruct (_isHorizontal s) as [[hz|e] s1] eqn:Ehz; simpl in Hst; subst s1;
    simpl; [|left; eexists; reflexivity].
  assert (Hs3 : forall a1 a2 a3,
             _isHorizontal (writeAttr cam a3 (writeAttr cam a2 (writeAttr cam a1 s)))
             = (Return hz, writeAttr cam a3 (writeAttr cam a2 (writeAttr cam a1 s))))
    by (intros; now do 3 apply _isHorizontal_writeAttr).
  destruct hz.
  - destruct (Req_dec_T (_ratio (self s)) 0); simpl;
      [left; eexists; reflexivity|].
    destruct (Req_dec_T (_width (self s)) 0) as [|Hw]; simpl;
      [left; eexists; reflexivity|].
    destruct (Req_dec_T (_width (self s) / _ratio (self s)) 0); simpl;
      [left; eexists; reflexivity|].
    rewrite ?Hc; simpl.
    match goal with
    | |- context [_getZoom ?s3] =>
        destruct (_getZoom_after_check s3 true (Hs3 _ _ _) Hw) as [z Hz];
        rewrite Hz
    end.
    right. exists cam. do 3 eexists. split; reflexivity.
  - destruct (Req_dec_T (_height (self s) * _ratio (self s)) 0); simpl;
      [left; eexists; reflexivity|].
    destruct (Req_dec_T (_height (self s)) 0) as [|Hh]; simpl;
      [left; eexists; reflexivity|].
    rewrite ?Hc; simpl.
    match goal with
    | |- context [_getZoom ?s3] =>
        destruct (_getZoom_after_check s3 false (Hs3 _ _ _) Hh) as [z Hz];
        rewrite Hz
    end.
    right. exists cam. do 3 eexists. split; reflexivity.
Qed.

Lemma setCameraAttr_toggle_twice (b : bool) (c : Camera) :
  panZoomEnabled c = b ->
  setCameraAttr (PanZoomEnabled (negb (negb b)))
                (setCameraAttr (PanZoomEnabled (negb b)) c) = c.
Proof. intros <-. destruct c. simpl. now rewrite Bool.negb_involutive. Qed.

(** X23. A press with ctrl on a perspective camera toggles
    [panZoomEnabled], shows the message of the new state and stores
    nothing of the view; a second such press brings every camera back to
    what it was. *)
Theorem ctrl_press_toggles (g : Gesture) (s : State) :
  let cam := activeCamera (world s) in
  let c := cameras (world s) cam in
  let s1 := exec (_press g) s in
  modifier g = "ctrl"%string ->
  isOrtho c = false ->
  panZoomEnabled (cameras (world s1) cam) = negb (panZoomEnabled c) /\
  effects (world s1)
  = (effects (world s)
     ++ [SetAttr cam (PanZoomEnabled (negb (panZoomEnabled c)));
         InViewMessage (if panZoomEnabled c then ZOOM_MESSAGE
                        else RESET_MESSAGE)])%list /\
  self s1 = set_mfn (Some cam) (self s) /\
  forall n : string,
    cameras (world (exec (_press g) s1)) n = cameras (world s) n.
Proof.
  intros cam c s1 Hm Ho.
  assert (Hpress : forall s0 : State,
             isOrtho (cameras (world s0) (activeCamera (world s0))) = false ->
             exec (_press g) s0
             = exec (emit (InViewMessage
                             (if panZoomEnabled
                                   (cameras (world s0) (activeCamera (world s0)))
                              then ZOOM_MESSAGE else RESET_MESSAGE)))
                    (writeAttr (activeCamera (world s0))
                       (PanZoomEnabled
                          (negb (panZoomEnabled
                                   (cameras (world s0) (activeCamera (world s0))))))
                       (mkState (set_mfn (Some (activeCamera (world s0))) (self s0))
                                (world s0)))).
  { intros s0 Ho0. unfold exec, _press, togglePanZoom. run_monad.
    rewrite Ho0, Hm. simpl.
    destruct (panZoomEnabled (cameras (world s0) (activeCamera (world s0))));
      reflexivity. }
  assert (H1 : s1 = exec (emit (InViewMessage
                                  (if panZoomEnabled c then ZOOM_MESSAGE
                                   else RESET_MESSAGE)))
                         (writeAttr cam (PanZoomEnabled (negb (panZoomEnabled c)))
                            (mkState (set_mfn (Some cam) (self s)) (world s))))
    by (apply Hpress; exact Ho).
  assert (Hcam1 : cameras (world s1) cam
                  = setCameraAttr (PanZoomEnabled (negb (panZoomEnabled c))) c).
  { rewrite H1. unfold exec, emit, modify, writeAttr. simpl.
    rewrite String.eqb_refl. reflexivity. }
  assert (Hact1 : activeCamera (world s1) = cam) by (rewrite H1; reflexivity).
  split; [rewrite Hcam1; destruct c; reflexivity|].
  split.
  { rewrite H1. unfold exec, emit, modify, writeAttr. simpl.
    rewrite <- app_assoc. reflexivity. }
  split; [rewrite H1; reflexivity|].
  intros n. rewrite Hpress.
  2:{ rewrite Hact1, Hcam1. destruct c; exact Ho. }
  rewrite Hact1, Hcam1.
  unfold exec, emit, modify, writeAttr. simpl.
  destruct (String.eqb n cam) eqn:En.
  - apply String.eqb_eq in En. subst n. rewrite Hcam1.
    replace (panZoomEnabled
               (setCameraAttr (PanZoomEnabled (negb (panZoomEnabled c))) c))
      with (negb (panZoomEnabled c)) by (destruct c; reflexivity).
    apply setCameraAttr_toggle_twice. reflexivity.
  - rewrite H1. unfold exec, emit, modify, writeAttr. simpl. rewrite En.
    reflexivity.
Qed.

Lemma ctrl_press_toggles_witness :
  panZoomEnabled
    (cameras (world (exec (_press (mkGesture (mkPoint 0 0 0) (mkPoint 0 0 0) "ctrl"))
                          Sample.framed))
             "perspShape")
  = negb (panZoomEnabled Sample.perspCamera).
Proof.
  refine (proj1 (ctrl_press_toggles
                   (mkGesture (mkPoint 0 0 0) (mkPoint 0 0 0) "ctrl")
                   Sample.framed eq_refl eq_refl)).
Defined.

Lemma _pan_run (s : State) (cam : string) :
  _mfn (self s) = Some cam ->
  _pan s
  = (Return tt,
     exec (emit Refresh)
          (write_all cam
             [HorizontalPan (_hPan (self s)
                             + IZR (_startX (self s) - _endX (self s))
                               * (81 / 100000) * zoom (cameras (world s) cam));
              VerticalPan (_vPan (self s)
                           + IZR (_startY (self s) - _endY (self s))
                             * (81 / 100000) * zoom (cameras (world s) cam))]
             s)).
Proof.
  intros Hc. unfold _pan, write_all, exec.
  cbv beta iota delta [bind ret raise gets modify field mfn mfn_name setAttr].
  repeat (rewrite Hc; cbv beta iota).
  unfold emit, modify. reflexivity.
Qed.

Lemma _drag_pan_run (g : Gesture) (s : State) (cam : string) :
  modifier g = "shift"%string ->
  _mfn (self s) = Some cam ->
  panZoomEnabled (cameras (world s) cam) = true ->
  let startX := py_int (p0 (anchorPoint g)) in
  let startY := py_int (p1 (anchorPoint g)) in
  let endX := py_int (p0 (dragPoint g)) in
  let endY := py_int (p1 (dragPoint g)) in
  let zoom := zoom (cameras (world s) cam) in
  exec (_drag g) s
  = exec (emit Refresh)
         (write_all cam
            [HorizontalPan (_hPan (self s)
                            + IZR (startX - endX) * (81 / 100000) * zoom);
             VerticalPan (_vPan (self s)
                          + IZR (startY - endY) * (81 / 100000) * zoom)]
            (mkState (set_points startX startY endX endY (self s)) (world s))).
Proof.
  intros Hm Hc Hon startX startY endX endY zoom0.
  subst startX startY endX endY zoom0.
  unfold exec at 1. unfold _drag. rewrite Hm.
  change (String.eqb "shift" "shift") with true. cbv beta iota.
  cbv beta iota delta [bind ret raise gets modify field mfn upd].
  cbn [self world _mfn set_points]. rewrite Hc. cbv beta iota.
  cbn [self world]. rewrite Hon. cbv beta iota.
  rewrite (_pan_run (mkState (set_points (py_int (p0 (anchorPoint g)))
                                         (py_int (p1 (anchorPoint g)))
                                         (py_int (p0 (dragPoint g)))
                                         (py_int (p1 (dragPoint g))) (self s))
                             (world s)) cam Hc).
  reflexivity.
Qed.

Lemma pan_written (c : Camera) (h v : R) :
  let c' := setCameraAttr (VerticalPan v) (setCameraAttr (HorizontalPan h) c) in
  horizontalPan c' = h /\ verticalPan c' = v /\ zoom c' = zoom c /\
  panZoomEnabled c' = panZoomEnabled c.
Proof. destruct c. simpl. repeat split. Qed.

(** X24. A shift drag pans from the pan stored at press: with pan/zoom
    enabled, the update writes the stored pan plus the pixels from the
    drag point to the anchor point times 0.00081 times the camera's zoom,
    and leaves the zoom and the flag alone; after two updates the pan is
    the one the second update alone would have set. *)
Theorem shift_drag_pans_from_press (g g2 : Gesture) (s : State) (cam : string) :
  modifier g = "shift"%string ->
  modifier g2 = "shift"%string ->
  _mfn (self s) = Some cam ->
  panZoomEnabled (cameras (world s) cam) = true ->
  let c := cameras (world s) cam in
  let pan (stored : R) (anchor drag : R) :=
    stored + IZR (py_int anchor - py_int drag) * (81 / 100000) * zoom c in
  let c1 := cameras (world (exec (_drag g) s)) cam in
  let c2 := cameras (world (exec (_drag g2) (exec (_drag g) s))) cam in
  (horizontalPan c1 = pan (_hPan (self s)) (p0 (anchorPoint g)) (p0 (dragPoint g)) /\
   verticalPan c1 = pan (_vPan (self s)) (p1 (anchorPoint g)) (p1 (dragPoint g)) /\
   zoom c1 = zoom c /\ panZoomEnabled c1 = true) /\
  (horizontalPan c2
   = pan (_hPan (self s)) (p0 (anchorPoint g2)) (p0 (dragPoint g2)) /\
   verticalPan c2
   = pan (_vPan (self s)) (p1 (anchorPoint g2)) (p1 (dragPoint g2))).
Proof.
  intros Hm Hm2 Hc Hon c pan c1 c2.
  assert (Hcam : forall (g0 : Gesture) (s0 : State),
             modifier g0 = "shift"%string ->
             _mfn (self s0) = Some cam ->
             panZoomEnabled (cameras (world s0) cam) = true ->
             cameras (world (exec (_drag g0) s0)) cam
             = setCameraAttr
                 (VerticalPan
                    (_vPan (self s0)
                     + IZR (py_int (p1 (anchorPoint g0)) - py_int (p1 (dragPoint g0)))
                       * (81 / 100000) * zoom (cameras (world s0) cam)))
                 (setCameraAttr
                    (HorizontalPan
                       (_hPan (self s0)
                        + IZR (py_int (p0 (anchorPoint g0))
                               - py_int (p0 (dragPoint g0)))
                          * (81 / 100000) * zoom (cameras (world s0) cam)))
                    (cameras (world s0) cam))).
  { intros g0 s0 H0 H1 H2. rewrite (_drag_pan_run g0 s0 cam H0 H1 H2).
    unfold exec, emit, modify. cbn [snd world cameras].
    rewrite write_all_camera. reflexivity. }
  assert (Hself : self (exec (_drag g) s)
                  = set_points (py_int (p0 (anchorPoint g)))
                               (py_int (p1 (anchorPoint g)))
                               (py_int (p0 (dragPoint g)))
                               (py_int (p1 (dragPoint g))) (self s)).
  { rewrite (_drag_pan_run g s cam Hm Hc Hon).
    unfold exec, emit, modify. cbn [snd self]. now rewrite write_all_self. }
  pose proof (Hcam g s Hm Hc Hon) as H1. fold c1 in H1. fold c in H1.
  destruct (pan_written c
              (_hPan (self s)
               + IZR (py_int (p0 (anchorPoint g)) - py_int (p0 (dragPoint g)))
                 * (81 / 100000) * zoom c)
              (_vPan (self s)
               + IZR (py_int (p1 (anchorPoint g)) - py_int (p1 (dragPoint g)))
                 * (81 / 100000) * zoom c))
    as (A & B & C & D).
  rewrite <- H1 in A, B, C, D.
  assert (Hon1 : panZoomEnabled c1 = true) by (rewrite D; exact Hon).
  split; [repeat split; assumption|].
  assert (Hc1 : _mfn (self (exec (_drag g) s)) = Some cam)
    by (rewrite Hself; exact Hc).
  pose proof (Hcam g2 (exec (_drag g) s) Hm2 Hc1 Hon1) as H2.
  fold c2 in H2. fold c1 in H2. rewrite Hself, C in H2.
  cbn [_hPan _vPan set_points] in H2.
  rewrite H2. split; apply pan_written.
Qed.

Lemma shift_drag_pans_from_press_witness :
  horizontalPan
    (cameras (world (exec (_drag Sample.shiftDrag)
                          (mkState (set_mfn (Some "topShape"%string) __init__)
                                   Sample.orthoWorld)))
             "topShape")
  = 0 + IZR (py_int 100 - py_int 50) * (81 / 100000) * 1.
Proof.
  refine (proj1 (proj1 (shift_drag_pans_from_press
                          Sample.shiftDrag Sample.shiftDrag
                          (mkState (set_mfn (Some "topShape"%string) __init__)
                                   Sample.orthoWorld)
                          "topShape" eq_refl eq_refl eq_refl eq_refl))).
Defined.

(** X25. A shift gesture continues from the camera's pan: on a
    perspective camera with pan/zoom enabled, press and drag with shift
    set the pan the camera had at press plus the dragged pixels times
    0.00081 times the zoom; the pans of successive gestures add up. *)
Theorem shift_gesture_continues_pan (g : Gesture) (s : State) :
  let cam := activeCamera (world s) in
  let c := cameras (world s) cam in
  let c' := cameras (world (exec (_drag g) (exec (_press g) s))) cam in
  modifier g = "shift"%string ->
  isOrtho c = false ->
  panZoomEnabled c = true ->
  horizontalPan c'
  = horizontalPan c
    + IZR (py_int (p0 (anchorPoint g)) - py_int (p0 (dragPoint g)))
      * (81 / 100000) * zoom c /\
  verticalPan c'
  = verticalPan c
    + IZR (py_int (p1 (anchorPoint g)) - py_int (p1 (dragPoint g)))
      * (81 / 100000) * zoom c.
Proof.
  intros cam c c' Hm Ho Hon. subst c'.
  assert (H1 : exec (_press g) s
               = mkState (set_view_info (IZR (portWidth (world s)))
                                        (IZR (portHeight (world s)))
                                        (aspectRatio c) (horizontalPan c)
                                        (verticalPan c)
                                        (set_mfn (Some cam) (self s)))
                         (world s)).
  { unfold exec. rewrite (_press_perspective g s Ho) by (rewrite Hm; reflexivity).
    reflexivity. }
  rewrite H1.
  rewrite (_drag_pan_run
             g (mkState (set_view_info (IZR (portWidth (world s)))
                                       (IZR (portHeight (world s)))
                                       (aspectRatio c) (horizontalPan c)
                                       (verticalPan c)
                                       (set_mfn (Some cam) (self s)))
                        (world s))
             cam Hm eq_refl Hon).
  unfold exec, emit, modify. cbn [snd world cameras self].
  rewrite write_all_camera. cbn [fold_left _hPan _vPan set_view_info].
  fold c. split; apply pan_written.
Qed.

Lemma shift_gesture_continues_pan_witness :
  horizontalPan
    (cameras (world (exec (_drag Sample.shiftDrag)
                          (exec (_press Sample.shiftDrag)
                                (mkState __init__
                                   (mkWorld "perspShape"
                                      (fun _ => setCameraAttr (PanZoomEnabled true)
                                                  Sample.perspCamera)
                                      1920 1080 [])))))
             "perspShape")
  = 0 + IZR (py_int 100 - py_int 50) * (81 / 100000) * 1.
Proof.
  refine (proj1 (shift_gesture_continues_pan
                   Sample.shiftDrag
                   (mkState __init__
                      (mkWorld "perspShape"
                         (fun _ => setCameraAttr (PanZoomEnabled true)
                                     Sample.perspCamera)
                         1920 1080 []))
                   eq_refl eq_refl eq_refl)).
Defined.

(** ** The zoom of a release, by gesture *)











End Framing.
